(** * Geo-Guardian: telemetry ingestion, movement inference and safety rewards

    A shallow embedding of the two stateful cores of the application:

    - [updateUserRewards] (the AuthProvider's reward engine), and
    - the [watchPosition] success callback of the LocationProvider together
      with its helpers [calculateSpeed], [calculateDistance], [smoothSpeed]
      and [detectMovement].

    JavaScript numbers are idealised as rationals ([Q]): the reward engine
    only adds, multiplies, divides, floors and compares, all of which are
    exact there.  What the host provides (the calendar month of a [Date],
    the transcendental members of [Math]) is taken as a parameter, so every
    result holds for whatever the platform computes. *)

From Stdlib Require Import ZArith QArith Qround Bool String List Lia Lqa.
From Stdlib Require Import DecimalString.
Import ListNotations.
Open Scope Q_scope.

(** ** Numbers *)

Definition number : Type := Q.

Module Num.

(** [x <= y], [x < y], [x >= y], [x > y] as the booleans JavaScript
    branches on. *)
Definition leb (x y : number) : bool := Qle_bool x y.
Definition ltb (x y : number) : bool := negb (Qle_bool y x).
Definition geb (x y : number) : bool := leb y x.
Definition gtb (x y : number) : bool := ltb y x.

(** [Math.floor], [Math.round] (halves go up), [Math.max], [Math.min]. *)
Definition floor (x : number) : number := inject_Z (Qfloor x).
Definition round (x : number) : number := inject_Z (Qfloor (x + (1 # 2))).
Definition max (x y : number) : number := if leb x y then y else x.
Definition min (x y : number) : number := if leb x y then x else y.

End Num.

(** ** Exceptions

    A rejected promise or a thrown error is [Throw]; [tryCatch] is the
    [try { ... } catch (error) { ... }] statement. *)

Inductive Result (A : Type) : Type :=
| Ok (a : A)
| Throw (error : string).

Arguments Ok {A} a.
Arguments Throw {A} error.

Definition bind {A B : Type} (r : Result A) (k : A -> Result B) : Result B :=
  match r with
  | Ok a => k a
  | Throw e => Throw e
  end.

Definition tryCatch {A : Type} (body : Result A) (handler : string -> Result A)
  : Result A :=
  match body with
  | Ok a => Ok a
  | Throw e => handler e
  end.

Notation "'await' x <- r ;; k" := (bind r (fun x => k))
  (at level 61, x name, r at next level, right associativity).

(** ** The user's profile *)

(** A [Date] is its epoch time in milliseconds. *)
Record Date : Type := newDate { getTime : Z }.

Record User : Type := mkUser { uid : string; userEmail : string }.

(** [interface UserProfile]: the reward fields and the identity fields the
    spread [...userProfile] carries along unchanged. *)
Record UserProfile : Type := mkUserProfile {
  profileUid : string;
  email : string;
  displayName : string;
  joinedCircles : list string;
  safetyScore : number;
  totalRewards : number;
  weeklyRewards : number;
  monthlyRewards : number;
  safetyStreak : number;
  speedViolations : number;
  lastSpeedCheck : option Date;
  averageSpeed : number;
  totalDrivingTime : number;          (* in minutes *)
  hasCompletedEmergencySetup : bool
}.

(** The argument of [updateUserRewards]. *)
Record SpeedData : Type := mkSpeedData {
  speed : number;
  duration : number
}.

(** What [updateDoc] is sent: the updated profile, with [lastSpeedCheck]
    overwritten by the store's [serverTimestamp()] sentinel. *)
Inductive FieldValue : Type := serverTimestamp.

Record UserDoc : Type := mkUserDoc {
  docFields : UserProfile;
  docLastSpeedCheck : FieldValue
}.

(** The React state of the AuthProvider that the engine reads and writes,
    and the console it logs to. *)
Record AuthState : Type := mkAuthState {
  currentUser : option User;
  userProfile : option UserProfile;
  console : list string
}.

Definition setUserProfile (st : AuthState) (p : UserProfile) : AuthState :=
  mkAuthState (currentUser st) (Some p) (console st).

Definition console_error (st : AuthState) (msg : string) : AuthState :=
  mkAuthState (currentUser st) (userProfile st) (console st ++ [msg]).

(** The safety score of the signed-in profile, if there is one, lies in
    [[0, 100]]. *)
Definition scoreInRange (st : AuthState) : Prop :=
  match userProfile st with
  | Some p => 0 <= safetyScore p /\ safetyScore p <= 100
  | None => True
  end.

(** [createDefaultProfile]: the reward fields of a new account. *)
Definition createDefaultProfile (user : User) (name : string) (code : string)
  (now : Date) : UserProfile :=
  {| profileUid := uid user;
     email := userEmail user;
     displayName := name;
     joinedCircles := [code];
     safetyScore := 100;
     totalRewards := 0;
     weeklyRewards := 0;
     monthlyRewards := 0;
     safetyStreak := 0;
     speedViolations := 0;
     lastSpeedCheck := Some now;
     averageSpeed := 0;
     totalDrivingTime := 0;
     hasCompletedEmergencySetup := false |}.

(** ** The reward engine: [updateUserRewards] *)

Section Rewards.

(** [Date.prototype.getMonth]: the month (0 to 11) of a date in the
    host's local calendar. *)
Variable getMonth : Date -> Z.

(** [userProfile.lastSpeedCheck || new Date(0)] *)
Definition lastCheck (userProfile : UserProfile) : Date :=
  match lastSpeedCheck userProfile with
  | Some d => d
  | None => newDate 0
  end.

(** The working copies [monthlyRewards] and [speedViolations] after the
    "reset monthly data if new month" step. *)
Definition monthlyReset (now : Date) (userProfile : UserProfile)
  : number * number :=
  let currentMonth := getMonth now in
  let lastMonth := getMonth (lastCheck userProfile) in
  if negb (currentMonth =? lastMonth)%Z
  then (0, 0)
  else (monthlyRewards userProfile, speedViolations userProfile).

Definition totalTime (userProfile : UserProfile) (speedData : SpeedData)
  : number :=
  totalDrivingTime userProfile + duration speedData.

Definition newAverageSpeed (userProfile : UserProfile)
  (speedData : SpeedData) : number :=
  if Num.gtb (totalTime userProfile speedData) 0
  then (averageSpeed userProfile * totalDrivingTime userProfile
        + speed speedData * duration speedData)
       / totalTime userProfile speedData
  else speed speedData.

(** The three mutable locals of the rule cascade. *)
Record Deltas : Type := mkDeltas {
  rewardChange : number;
  safetyScoreChange : number;
  newSpeedViolations : number
}.

(** "Enhanced speed-based rewards and penalties": starts from
    [rewardChange = 0], [safetyScoreChange = 0],
    [newSpeedViolations = speedViolations]. *)
Definition speedBand (speedViolations : number) (speedData : SpeedData)
  : Deltas :=
  if Num.leb (speed speedData) 65 then
    mkDeltas (Num.floor (duration speedData / 60) * 8) (2 # 10)
             speedViolations
  else if Num.gtb (speed speedData) 75 then
    mkDeltas (- Num.floor (duration speedData / 60) * 15) (- (8 # 10))
             (speedViolations + 1)
  else if Num.gtb (speed speedData) 65 then
    mkDeltas (- Num.floor (duration speedData / 60) * 3) (- (1 # 10))
             speedViolations
  else
    mkDeltas 0 0 speedViolations.

(** "Running/walking speed consideration (3-15 mph range)": overwrites
    the reward and the score change, not the violation count. *)
Definition exerciseBand (speedData : SpeedData) (d : Deltas) : Deltas :=
  if Num.geb (speed speedData) 3 && Num.leb (speed speedData) 15 then
    mkDeltas (Num.floor (duration speedData / 60) * 5) (1 # 10)
             (newSpeedViolations d)
  else d.

(** "Monthly average speed bonus/penalty". *)
Definition monthlyBonus (userProfile : UserProfile) (speedData : SpeedData)
  (d : Deltas) : Deltas :=
  if Num.geb (totalTime userProfile speedData) (30 * 60) then
    if Num.leb (newAverageSpeed userProfile speedData) 65 then
      mkDeltas (rewardChange d + 150) (safetyScoreChange d)
               (newSpeedViolations d)
    else if Num.gtb (newAverageSpeed userProfile speedData) 75 then
      mkDeltas (rewardChange d - 300) (safetyScoreChange d)
               (newSpeedViolations d)
    else d
  else d.

(** The locals as they stand when [updatedProfile] is built. *)
Definition deltas (now : Date) (userProfile : UserProfile)
  (speedData : SpeedData) : Deltas :=
  monthlyBonus userProfile speedData
    (exerciseBand speedData
       (speedBand (snd (monthlyReset now userProfile)) speedData)).

Definition updatedProfile (now : Date) (userProfile : UserProfile)
  (speedData : SpeedData) : UserProfile :=
  let monthlyRewards' := fst (monthlyReset now userProfile) in
  let d := deltas now userProfile speedData in
  {| profileUid := profileUid userProfile;
     email := email userProfile;
     displayName := displayName userProfile;
     joinedCircles := joinedCircles userProfile;
     safetyScore :=
       Num.max 0 (Num.min 100 (safetyScore userProfile + safetyScoreChange d));
     totalRewards := Num.max 0 (totalRewards userProfile + rewardChange d);
     weeklyRewards := weeklyRewards userProfile + Num.max 0 (rewardChange d);
     monthlyRewards := monthlyRewards' + Num.max 0 (rewardChange d);
     safetyStreak := safetyStreak userProfile;
     speedViolations := newSpeedViolations d;
     lastSpeedCheck := Some now;
     averageSpeed := newAverageSpeed userProfile speedData;
     totalDrivingTime := totalTime userProfile speedData;
     hasCompletedEmergencySetup := hasCompletedEmergencySetup userProfile |}.

(** [updateUserRewards]: [now] is what [new Date()] returns, [updateDoc]
    the outcome of the store write for a given document. *)
Definition updateUserRewards (now : Date)
  (updateDoc : string -> UserDoc -> Result unit)
  (st : AuthState) (speedData : SpeedData) : Result AuthState :=
  match currentUser st, userProfile st with
  | Some user, Some profile =>
      tryCatch
        (let updated := updatedProfile now profile speedData in
         await _ <- updateDoc (uid user) (mkUserDoc updated serverTimestamp) ;;
         Ok (setUserProfile st updated))
        (fun error =>
           Ok (console_error st
                 ("Error updating user rewards: " ++ error)%string))
  | _, _ => Ok st
  end.

(** A run of calls, each with its own clock reading and store outcome,
    one call in flight at a time, each made by a closure of the render that
    followed the call before, so that it reads the state that call left.
    Calls made by one and the same closure are [runSession]. *)
Record Call : Type := mkCall {
  callNow : Date;
  callUpdateDoc : string -> UserDoc -> Result unit;
  callData : SpeedData
}.

Fixpoint runCalls (st : AuthState) (calls : list Call) : Result AuthState :=
  match calls with
  | [] => Ok st
  | c :: rest =>
      await st' <- updateUserRewards (callNow c) (callUpdateDoc c) st
                     (callData c) ;;
      runCalls st' rest
  end.

(** [updateUserRewards] as the closure of one render runs it later on:
    it reads [currentUser] and [userProfile] as [captured] when the closure
    was created, and its setter and its log act on the [current] state. *)
Definition updateUserRewardsFrom (now : Date)
  (updateDoc : string -> UserDoc -> Result unit)
  (captured current : AuthState) (speedData : SpeedData) : Result AuthState :=
  match currentUser captured, userProfile captured with
  | Some user, Some profile =>
      tryCatch
        (let updated := updatedProfile now profile speedData in
         await _ <- updateDoc (uid user) (mkUserDoc updated serverTimestamp) ;;
         Ok (setUserProfile current updated))
        (fun error =>
           Ok (console_error current
                 ("Error updating user rewards: " ++ error)%string))
  | _, _ => Ok current
  end.

(** The calls one closure makes, as the [watchPosition] callback does
    through the [updateLocation] it was registered with: every call reads
    [captured], the state moves from [current]. *)
Fixpoint runSession (captured current : AuthState) (calls : list Call)
  : Result AuthState :=
  match calls with
  | [] => Ok current
  | c :: rest =>
      await current' <- updateUserRewardsFrom (callNow c) (callUpdateDoc c)
                          captured current (callData c) ;;
      runSession captured current' rest
  end.

End Rewards.

(** ** The location tracker: the [watchPosition] callback and its helpers *)

(** The transcendental members of [Math], as the host implements them. *)
Record MathLib : Type := mkMathLib {
  Math_PI : number;
  Math_sin : number -> number;
  Math_cos : number -> number;
  Math_sqrt : number -> number;
  Math_atan2 : number -> number -> number
}.

(** [position.coords] *)
Module Coords.
Record t : Type := mk {
  latitude : number;
  longitude : number;
  accuracy : number;
  heading : option number;
  altitude : option number;
  speed : option number           (* m/s, [null] when not reported *)
}.
End Coords.

(** An entry of [movementHistory]. *)
Module Movement.
Record t : Type := mk { time : Z; lat : number; lon : number }.
End Movement.

(** [lastPosition] *)
Module LastPosition.
Record t : Type := mk {
  lat : number;
  lon : number;
  time : Z;
  speed : number
}.
End LastPosition.

Inductive Accuracy : Type := high | medium | low.

(** [interface LocationData] *)
Module LocationData.
Record t : Type := mk {
  latitude : number;
  longitude : number;
  speed : number;
  battery : number;
  isDriving : bool;
  lastUpdated : Z;
  accuracy : number;
  heading : option number;
  altitude : option number
}.
End LocationData.

(** The LocationProvider's state that the callback closes over and sets. *)
Record Tracker : Type := mkTracker {
  speedHistory : list number;
  movementHistory : list Movement.t;
  lastPosition : option LastPosition.t;
  locationAccuracy : Accuracy
}.

(** [l.slice(-n)]: the last [n] elements, all of [l] when it is shorter. *)
Definition slice_last {A : Type} (n : nat) (l : list A) : list A :=
  skipn (length l - n) l.

(** No non-negative speed reported by the device. *)
Definition unreported (coords : Coords.t) : Prop :=
  match Coords.speed coords with
  | Some s => s < 0
  | None => True
  end.

Section Tracking.

Variable M : MathLib.

Definition calculateDistance (lat1 lon1 lat2 lon2 : number) : number :=
  let R := 6371000 in
  let dLat := (lat2 - lat1) * Math_PI M / 180 in
  let dLon := (lon2 - lon1) * Math_PI M / 180 in
  let a := Math_sin M (dLat / 2) * Math_sin M (dLat / 2)
           + Math_cos M (lat1 * Math_PI M / 180)
             * Math_cos M (lat2 * Math_PI M / 180)
             * Math_sin M (dLon / 2) * Math_sin M (dLon / 2) in
  let c := 2 * Math_atan2 M (Math_sqrt M a) (Math_sqrt M (1 - a)) in
  R * c.

(** [calculateSpeed].  Numbers are exact here: where the source ends in
    [NaN] (a zero distance over a zero elapsed time, a haversine term
    outside [[0, 1]]) the properties of its range below carry the
    hypotheses that keep those inputs out. *)
Definition calculateSpeed (lat1 lon1 lat2 lon2 : number) (timeDiff : Z)
  : number :=
  let R := 6371000 in
  let dLat := (lat2 - lat1) * Math_PI M / 180 in
  let dLon := (lon2 - lon1) * Math_PI M / 180 in
  let a := Math_sin M (dLat / 2) * Math_sin M (dLat / 2)
           + Math_cos M (lat1 * Math_PI M / 180)
             * Math_cos M (lat2 * Math_PI M / 180)
             * Math_sin M (dLon / 2) * Math_sin M (dLon / 2) in
  let c := 2 * Math_atan2 M (Math_sqrt M a) (Math_sqrt M (1 - a)) in
  let distance := R * c in
  let timeInSeconds := inject_Z timeDiff / 1000 in
  let speedMps := distance / timeInSeconds in
  let speedMph := speedMps * (2237 # 1000) in
  if Num.gtb speedMph 150
     || (Num.gtb speedMph 80 && (timeDiff <? 5000)%Z)
  then 0
  else Num.max 0 (Num.round speedMph).

(** The [for] loop of [detectMovement]: [prev] is [recentMovements[i-1]],
    [rest] starts at [recentMovements[i]]. *)
Fixpoint sumDistances (prev : Movement.t) (rest : list Movement.t)
  (totalDistance : number) : number :=
  match rest with
  | [] => totalDistance
  | curr :: rest' =>
      sumDistances curr rest'
        (totalDistance
         + calculateDistance (Movement.lat prev) (Movement.lon prev)
                             (Movement.lat curr) (Movement.lon curr))
  end.

(** [detectMovement]; [now] is what its own [Date.now()] returns. *)
Definition detectMovement (movementHistory : list Movement.t) (now : Z)
  (accuracy : number) : bool :=
  if (length movementHistory <? 3)%nat then false
  else
    let recentMovements :=
      filter (fun m => (now - Movement.time m <? 30000)%Z) movementHistory in
    if (length recentMovements <? 2)%nat then false
    else
      let totalDistance :=
        match recentMovements with
        | [] => 0
        | first :: rest => sumDistances first rest 0
        end in
      let movementThreshold := Num.max 5 (accuracy * 2) in
      Num.gtb totalDistance movementThreshold.

(** The [forEach] of [smoothSpeed]: the pair is
    [(weightedSum, totalWeight)]. *)
Fixpoint weigh (history : list number) (index : nat)
  (acc : number * number) : number * number :=
  match history with
  | [] => acc
  | speed :: rest =>
      let weight := inject_Z (Z.of_nat index + 1) in
      weigh rest (S index) (fst acc + speed * weight, snd acc + weight)
  end.

(** [smoothSpeed]: the history it sets and the value it returns. *)
Definition smoothSpeed (speedHistory : list number) (newSpeed : number)
  : list number * number :=
  let maxHistoryLength := 5%nat in
  let updatedHistory :=
    slice_last maxHistoryLength (speedHistory ++ [newSpeed]) in
  let '(weightedSum, totalWeight) := weigh updatedHistory 0 (0, 0) in
  (updatedHistory, Num.round (weightedSum / totalWeight)).

(** [setMovementHistory(prev => [...prev.slice(-10), newMovement])] *)
Definition pushMovement (prev : list Movement.t) (newMovement : Movement.t)
  : list Movement.t :=
  slice_last 10 prev ++ [newMovement].

(** The local [calculatedSpeed] of the callback. *)
Definition calculatedSpeed (lastPosition : option LastPosition.t)
  (coords : Coords.t) (now : Z) : number :=
  let fromLastPosition :=
    match lastPosition with
    | Some last =>
        let timeDiff := (now - LastPosition.time last)%Z in
        if (timeDiff >? 2000)%Z
        then calculateSpeed (LastPosition.lat last) (LastPosition.lon last)
               (Coords.latitude coords) (Coords.longitude coords) timeDiff
        else LastPosition.speed last
    | None => 0
    end in
  match Coords.speed coords with
  | Some speed =>
      if Num.geb speed 0
      then Num.round (speed * (2237 # 1000))
      else fromLastPosition
  | None => fromLastPosition
  end.

Definition accuracyLevel (accuracy : number) : Accuracy :=
  if Num.leb accuracy 3 then high
  else if Num.leb accuracy 10 then medium
  else low.

(** The success callback of [watchPosition].  [tr] holds the state values
    the callback reads; [now] is its [Date.now()], [battery] what
    [getBatteryLevel] resolved to, [detectNow] the clock read inside
    [detectMovement] and [stamp] the [new Date()] of the sample.  Returned
    are the state after the setters and the sample handed to
    [updateLocation].  [detectMovement] still sees the history as it was
    before this fix was pushed, and [accuracy || 0] is [accuracy] itself,
    0 being the only falsy rational. *)
Definition onPosition (tr : Tracker) (coords : Coords.t)
  (now : Z) (battery : number) (detectNow stamp : Z)
  : Tracker * LocationData.t :=
  let newMovement :=
    Movement.mk now (Coords.latitude coords) (Coords.longitude coords) in
  let movementHistory' := pushMovement (movementHistory tr) newMovement in
  let calculated := calculatedSpeed (lastPosition tr) coords now in
  let '(speedHistory', smoothedSpeed) :=
    smoothSpeed (speedHistory tr) calculated in
  let lastPosition' :=
    LastPosition.mk (Coords.latitude coords) (Coords.longitude coords)
                    now smoothedSpeed in
  let isMoving :=
    detectMovement (movementHistory tr) detectNow (Coords.accuracy coords)
    || Num.gtb smoothedSpeed 2 in
  (mkTracker speedHistory' movementHistory' (Some lastPosition')
             (accuracyLevel (Coords.accuracy coords)),
   LocationData.mk (Coords.latitude coords) (Coords.longitude coords)
     smoothedSpeed battery
     (isMoving && Num.gtb smoothedSpeed 2)
     stamp (Coords.accuracy coords)
     (Coords.heading coords) (Coords.altitude coords)).

(** One delivered fix with the clock and battery readings taken while it
    is processed. *)
Record Fix : Type := mkFix {
  fixCoords : Coords.t;
  fixNow : Z;
  fixBattery : number;
  fixDetectNow : Z;
  fixStamp : Z
}.

(** Fixes are processed in delivery order, each on the state left by the
    one before: the chain of states when the callback is registered anew
    before every fix.  The fixes one registered callback handles are
    [sessionFixes]. *)
Fixpoint processFixes (tr : Tracker) (fixes : list Fix) : Tracker :=
  match fixes with
  | [] => tr
  | f :: rest =>
      processFixes
        (fst (onPosition tr (fixCoords f) (fixNow f) (fixBattery f)
                (fixDetectNow f) (fixStamp f)))
        rest
  end.

(** [toggleLocationSharing] when sharing is on: the histories are
    cleared. *)
Definition sharingOff (tr : Tracker) : Tracker :=
  mkTracker [] [] (lastPosition tr) medium.

(** The term [a] of the haversine formula, as [calculateSpeed] and
    [calculateDistance] compute it. *)
Definition haversineTerm (lat1 lon1 lat2 lon2 : number) : number :=
  let dLat := (lat2 - lat1) * Math_PI M / 180 in
  let dLon := (lon2 - lon1) * Math_PI M / 180 in
  Math_sin M (dLat / 2) * Math_sin M (dLat / 2)
  + Math_cos M (lat1 * Math_PI M / 180)
    * Math_cos M (lat2 * Math_PI M / 180)
    * Math_sin M (dLon / 2) * Math_sin M (dLon / 2).

(** The callback registered in the render whose state is [captured],
    handling a fix when the state has become [current]: [speedHistory],
    [lastPosition] and the history seen by [detectMovement] are read from
    [captured]; of the setters only [setMovementHistory], which is given an
    updater, builds on [current]. *)
Definition onPositionFrom (captured current : Tracker) (coords : Coords.t)
  (now : Z) (battery : number) (detectNow stamp : Z)
  : Tracker * LocationData.t :=
  let r := onPosition captured coords now battery detectNow stamp in
  (mkTracker (speedHistory (fst r))
             (pushMovement (movementHistory current)
                (Movement.mk now (Coords.latitude coords)
                             (Coords.longitude coords)))
             (lastPosition (fst r))
             (locationAccuracy (fst r)),
   snd r).

(** The fixes one registered callback handles: the state they leave and
    the samples handed to [updateLocation], in order. *)
Fixpoint sessionFixes (captured current : Tracker) (fixes : list Fix)
  : Tracker * list LocationData.t :=
  match fixes with
  | [] => (current, [])
  | f :: rest =>
      let r := onPositionFrom captured current (fixCoords f) (fixNow f)
                 (fixBattery f) (fixDetectNow f) (fixStamp f) in
      let rs := sessionFixes captured (fst r) rest in
      (fst rs, snd r :: snd rs)
  end.

End Tracking.

(** ** The rest of the LocationProvider *)

(** What [navigator.getBattery] does on this device: absent, resolving with
    a [level] between 0 and 1, or rejecting. *)
Inductive BatteryApi : Type :=
| batteryMissing
| batteryResolves (level : number)
| batteryRejects (error : string).

(** [getBatteryLevel]; [hour] and [minute] are the local time of day,
    [random] is what the one [Math.random()] reached returns. *)
Definition getBatteryLevel (api : BatteryApi) (hour minute random : number)
  : Result number :=
  tryCatch
    (match api with
     | batteryResolves level => Ok (Num.round (level * 100))
     | batteryRejects error => Throw error
     | batteryMissing =>
         let timeBasedDrain :=
           Num.floor ((hour * 60 + minute) / (144 # 10)) in
         let baseBattery := 100 - timeBasedDrain in
         let variation := Num.floor (random * 10) - 5 in
         let baseBattery := baseBattery + variation in
         Ok (Num.max 15 (Num.min 100 baseBattery))
     end)
    (fun error => Ok (Num.floor (random * 40) + 50)).

(** The LocationProvider's state: the tracker's histories and tier, the
    sharing switch, the last published sample and the time of the last
    reward update. *)
Record LocationState : Type := mkLocationState {
  tracker : Tracker;
  isLocationSharing : bool;
  currentLocation : option LocationData.t;
  lastSpeedUpdate : option Date
}.

Definition setLastSpeedUpdate (ls : LocationState) (d : Date) : LocationState :=
  mkLocationState (tracker ls) (isLocationSharing ls) (currentLocation ls)
                  (Some d).

Definition setCurrentLocation (ls : LocationState) (location : LocationData.t)
  : LocationState :=
  mkLocationState (tracker ls) (isLocationSharing ls) (Some location)
                  (lastSpeedUpdate ls).

(** The document [updateLocation] merges into [userLocations/<uid>] (the
    profile picture, which the profile model does not carry, left out). *)
Record LocationDoc : Type := mkLocationDoc {
  docSample : LocationData.t;
  docUserId : string;
  docUserName : string;
  docLastUpdated : Date
}.

(** [s || fallback] on strings: the empty string is falsy. *)
Definition orString (s : option string) (fallback : string) : string :=
  match s with
  | Some EmptyString | None => fallback
  | Some s' => s'
  end.

(** [x || fallback] on numbers: a missing field and 0 are falsy. *)
Definition orNumber (x : option number) (fallback : number) : number :=
  match x with
  | Some v => if Qeq_bool v 0 then fallback else v
  | None => fallback
  end.

(** What [navigator.geolocation.getCurrentPosition] does when sharing is
    switched on: no geolocation at all, a first position with its accuracy,
    or an error (permission denied, timeout). *)
Inductive Geolocation : Type :=
| geoUnsupported
| geoPosition (accuracy : number)
| geoError (error : string).

(** The tier set from the first position. *)
Definition initialAccuracy (accuracy : number) : Accuracy :=
  if Num.leb accuracy 5 then high
  else if Num.leb accuracy 20 then medium
  else low.

(** [toggleLocationSharing]: the state it leaves and the alerts it shows. *)
Definition toggleLocationSharing (geo : Geolocation) (ls : LocationState)
  : LocationState * list string :=
  if negb (isLocationSharing ls) then
    match geo with
    | geoPosition accuracy =>
        (mkLocationState
           (mkTracker (speedHistory (tracker ls))
                      (movementHistory (tracker ls))
                      (lastPosition (tracker ls))
                      (initialAccuracy accuracy))
           true (currentLocation ls) (lastSpeedUpdate ls),
         [])
    | geoError error =>
        (ls,
         ["Location access is required for Circle Drive to work properly. Please enable location services and try again."%string])
    | geoUnsupported =>
        (ls, ["Geolocation is not supported by this browser."%string])
    end
  else
    (mkLocationState (sharingOff (tracker ls)) false
                     (currentLocation ls) (lastSpeedUpdate ls),
     []).

Section Publishing.

Variable getMonth : Date -> Z.

(** [updateLocation].  [setDoc] and [updateDoc] are the outcomes of the two
    store writes; [stamp], [check], [rewardNow] and [mark] are the four
    clock readings, in the order the code takes them: the sample's
    [lastUpdated], the time compared with [lastSpeedUpdate], the
    [new Date()] of [updateUserRewards], and the new [lastSpeedUpdate]. *)
Definition updateLocation
  (setDoc : string -> LocationDoc -> Result unit)
  (updateDoc : string -> UserDoc -> Result unit)
  (stamp check rewardNow mark : Date)
  (auth : AuthState) (ls : LocationState) (location : LocationData.t)
  : Result (AuthState * LocationState) :=
  match currentUser auth with
  | Some user =>
      if isLocationSharing ls then
        tryCatch
          (await _ <- setDoc (uid user)
                        (mkLocationDoc location (uid user)
                           (orString (option_map displayName (userProfile auth))
                                     "User")
                           stamp) ;;
           await r <-
             (match lastSpeedUpdate ls with
              | Some last =>
                  if Num.geb (LocationData.speed location) 0 then
                    let timeDiff :=
                      inject_Z (getTime check - getTime last) / (1000 * 60) in
                    if Num.geb timeDiff (5 # 10) then
                      await auth' <-
                        updateUserRewards getMonth rewardNow updateDoc auth
                          (mkSpeedData (LocationData.speed location) timeDiff) ;;
                      Ok (auth', setLastSpeedUpdate ls mark)
                    else Ok (auth, ls)
                  else Ok (auth, ls)
              | None =>
                  if Num.geb (LocationData.speed location) 0
                  then Ok (auth, setLastSpeedUpdate ls mark)
                  else Ok (auth, ls)
              end) ;;
           Ok (fst r, setCurrentLocation (snd r) location))
          (fun error =>
             Ok (console_error auth ("Error updating location: " ++ error)%string,
                 ls))
      else Ok (auth, ls)
  | None => Ok (auth, ls)
  end.

End Publishing.

(** ** The circle members' view: the body of [refreshCircleMembers] *)

(** A [userLocations] document as read back: any field may be missing. *)
Record StoredLocation : Type := mkStoredLocation {
  storedLatitude : option number;
  storedLongitude : option number;
  storedSpeed : option number;
  storedBattery : option number;
  storedLastUpdated : option Date;
  storedAccuracy : option number
}.

(** The fields of a [users] document the member list reads. *)
Record StoredUser : Type := mkStoredUser {
  storedDisplayName : option string;
  storedEmail : option string;
  storedSafetyScore : option number;
  storedTotalRewards : option number
}.

(** [interface CircleMember] *)
Module CircleMember.
Record t : Type := mk {
  id : string;
  name : string;
  email : string;
  location : LocationData.t;
  lastSeen : string;
  safetyScore : number;
  totalRewards : number;
  isOnline : bool
}.
End CircleMember.

(** An integer inside a template literal. *)
Definition showZ (n : Z) : string := NilZero.string_of_int (Z.to_int n).

(** The [lastSeen] text for a record [timeDiff] milliseconds old. *)
Definition lastSeenText (timeDiff : Z) : string :=
  if (timeDiff <? 60000)%Z then "now"
  else if (timeDiff <? 3600000)%Z
  then (showZ (timeDiff / 60000) ++ " min ago")%string
  else if (timeDiff <? 86400000)%Z
  then (showZ (timeDiff / 3600000) ++ " hr ago")%string
  else (showZ (timeDiff / 86400000) ++ " days ago")%string.

(** [locData.speed > 3], false when the field is missing. *)
Definition storedDriving (locData : StoredLocation) : bool :=
  match storedSpeed locData with
  | Some s => Num.gtb s 3
  | None => false
  end.

(** The [locationData] and [lastSeen] built for one member.  [fresh] is the
    [new Date()] used when a timestamp is missing, [seenNow] the
    [Date.now()] the age is measured from. *)
Definition memberLocation (locationSnapshot : option StoredLocation)
  (fresh : Date) (seenNow : Z) : LocationData.t * string :=
  match locationSnapshot with
  | None =>
      (LocationData.mk 0 0 0 85 false (getTime fresh) 10 None None,
       "Never"%string)
  | Some locData =>
      let lastUpdated :=
        match storedLastUpdated locData with
        | Some d => d
        | None => fresh
        end in
      let locationData :=
        LocationData.mk
          (orNumber (storedLatitude locData) 0)
          (orNumber (storedLongitude locData) 0)
          (orNumber (storedSpeed locData) 0)
          (orNumber (storedBattery locData) 85)
          (storedDriving locData)
          (getTime lastUpdated)
          (orNumber (storedAccuracy locData) 10)
          None None in
      let timeDiff := (seenNow - getTime lastUpdated)%Z in
      (locationData, lastSeenText timeDiff)
  end.

(** The entry pushed for one member; [onlineNow] is the [Date.now()] of the
    [isOnline] test. *)
Definition circleMember (memberId : string) (userData : StoredUser)
  (locationSnapshot : option StoredLocation) (fresh : Date)
  (seenNow onlineNow : Z) : CircleMember.t :=
  let '(locationData, lastSeen) :=
    memberLocation locationSnapshot fresh seenNow in
  CircleMember.mk memberId
    (orString (storedDisplayName userData) "User")
    (orString (storedEmail userData) "")
    locationData
    lastSeen
    (orNumber (storedSafetyScore userData) 100)
    (orNumber (storedTotalRewards userData) 0)
    (onlineNow - LocationData.lastUpdated locationData <? 300000)%Z.

(** What [updateLocation] stores of a sample, as [refreshCircleMembers]
    reads it back. *)
Definition storedSample (sample : LocationData.t) (stamp : Date)
  : StoredLocation :=
  mkStoredLocation
    (Some (LocationData.latitude sample))
    (Some (LocationData.longitude sample))
    (Some (LocationData.speed sample))
    (Some (LocationData.battery sample))
    (Some stamp)
    (Some (LocationData.accuracy sample)).

(** ** Joining and leaving a circle *)

(** The two documents [joinCircle] and [leaveCircle] write. *)
Inductive Write : Type :=
| SetCircleMembers (circleCode : string) (members : list string)
| SetJoinedCircles (userId : string) (joinedCircles : list string).

(** The store as these operations meet it: [findCircle] is the query for
    the circle with a given code (its members when it exists), [accepts]
    the outcome of an [updateDoc]. *)
Record Backend : Type := mkBackend {
  findCircle : string -> Result (option (list string));
  accepts : Write -> Result unit
}.

(** What a call leaves behind: the provider's state and [error], the writes
    the store accepted, in order, and whether the call returned or threw. *)
Record Outcome : Type := mkOutcome {
  outAuth : AuthState;
  outError : option string;
  outWrites : list Write;
  outResult : Result unit
}.

(** [{...userProfile, joinedCircles: updatedCircles}] *)
Definition withJoinedCircles (userProfile : UserProfile)
  (updatedCircles : list string) : UserProfile :=
  {| profileUid := profileUid userProfile;
     email := email userProfile;
     displayName := displayName userProfile;
     joinedCircles := updatedCircles;
     safetyScore := safetyScore userProfile;
     totalRewards := totalRewards userProfile;
     weeklyRewards := weeklyRewards userProfile;
     monthlyRewards := monthlyRewards userProfile;
     safetyStreak := safetyStreak userProfile;
     speedViolations := speedViolations userProfile;
     lastSpeedCheck := lastSpeedCheck userProfile;
     averageSpeed := averageSpeed userProfile;
     totalDrivingTime := totalDrivingTime userProfile;
     hasCompletedEmergencySetup := hasCompletedEmergencySetup userProfile |}.

(** [joinedCircles.includes(circleCode)] *)
Definition includes (joinedCircles : list string) (circleCode : string) : bool :=
  existsb (String.eqb circleCode) joinedCircles.

(** The [catch] block shared by both operations: log, [setError], rethrow. *)
Definition rethrow (label fallback : string) (auth : AuthState)
  (writes : list Write) (message : string) : Outcome :=
  mkOutcome (console_error auth (label ++ message)%string)
            (Some (orString (Some message) fallback))
            writes
            (Throw message).

(** [joinCircle].  [error] is the provider's [error] state on entry. *)
Definition joinCircle (backend : Backend) (auth : AuthState)
  (error : option string) (circleCode : string) : Outcome :=
  match currentUser auth, userProfile auth with
  | Some user, Some profile =>
      let failed := rethrow "Join circle error: " "Failed to join circle" auth in
      if (1 <? length (joinedCircles profile))%nat then
        failed []
          "You are already in a circle. Leave your current circle first."%string
      else
        match findCircle backend circleCode with
        | Throw e => failed [] e
        | Ok None => failed [] "Circle not found"%string
        | Ok (Some members) =>
            if includes (joinedCircles profile) circleCode then
              failed [] "Already in this circle"%string
            else
              let updatedMembers := members ++ [uid user] in
              let first := SetCircleMembers circleCode updatedMembers in
              match accepts backend first with
              | Throw e => failed [] e
              | Ok _ =>
                  let updatedCircles := joinedCircles profile ++ [circleCode] in
                  let second := SetJoinedCircles (uid user) updatedCircles in
                  match accepts backend second with
                  | Throw e => failed [first] e
                  | Ok _ =>
                      mkOutcome
                        (setUserProfile auth
                           (withJoinedCircles profile updatedCircles))
                        None [first; second] (Ok tt)
                  end
              end
        end
  | _, _ => mkOutcome auth error [] (Throw "User not authenticated")
  end.

(** [leaveCircle].  [ownCircle] is the profile's [circleCode], the circle
    created with the account, which the profile model does not carry. *)
Definition leaveCircle (backend : Backend) (auth : AuthState)
  (error : option string) (ownCircle : option string) (circleCode : string)
  : Outcome :=
  match currentUser auth, userProfile auth with
  | Some user, Some profile =>
      let failed :=
        rethrow "Leave circle error: " "Failed to leave circle" auth in
      let isOwn :=
        match ownCircle with
        | Some own => String.eqb circleCode own
        | None => false
        end in
      if isOwn then failed [] "Cannot leave your own circle"%string
      else if negb (includes (joinedCircles profile) circleCode) then
        failed [] "You are not in this circle"%string
      else
        let finish (done : list Write) : Outcome :=
          let updatedCircles :=
            filter (fun code => negb (String.eqb code circleCode))
                   (joinedCircles profile) in
          let second := SetJoinedCircles (uid user) updatedCircles in
          match accepts backend second with
          | Throw e => failed done e
          | Ok _ =>
              mkOutcome
                (setUserProfile auth (withJoinedCircles profile updatedCircles))
                None (done ++ [second]) (Ok tt)
          end in
        match findCircle backend circleCode with
        | Throw e => failed [] e
        | Ok None => finish []
        | Ok (Some members) =>
            let updatedMembers :=
              filter (fun memberId => negb (String.eqb memberId (uid user)))
                     members in
            let first := SetCircleMembers circleCode updatedMembers in
            match accepts backend first with
            | Throw e => failed [] e
            | Ok _ => finish [first]
            end
        end
  | _, _ => mkOutcome auth error [] (Throw "User not authenticated")
  end.

(** ** Vocabulary of the properties *)

(** A number that is a whole number, as [Math.round] and [Math.floor]
    return. *)
Definition isInteger (x : number) : Prop := exists z : Z, x = inject_Z z.

(** Tiers from best to worst. *)
Definition tierRank (a : Accuracy) : nat :=
  match a with
  | high => 0
  | medium => 1
  | low => 2
  end.

(** Every speed the tracker remembers is non-negative. *)
Definition speedsNonneg (tr : Tracker) : Prop :=
  Forall (fun s => 0 <= s) (speedHistory tr)
  /\ match lastPosition tr with
     | Some last => 0 <= LastPosition.speed last
     | None => True
     end.

(** ** A concrete host, to run the definitions on concrete inputs *)

Module Host.

(** The month (0 = January) of an epoch time, in the UTC proleptic
    Gregorian calendar (days are counted from 1 March of year 0 and grouped
    in 400-year eras). *)
Definition utcMonth (d : Date) : Z :=
  let days := (getTime d / 86400000)%Z in
  let z := (days + 719468)%Z in
  let era := (z / 146097)%Z in
  let doe := (z - era * 146097)%Z in
  let yoe := ((doe - doe / 1460 + doe / 36524 - doe / 146096) / 365)%Z in
  let doy := (doe - (365 * yoe + yoe / 4 - yoe / 100))%Z in
  let mp := ((5 * doy + 2) / 153)%Z in
  if (mp <? 10)%Z then (mp + 2)%Z else (mp - 10)%Z.

(** Square root to twelve decimal places, through the integer square
    root. *)
Definition sqrt12 (a : number) : number :=
  inject_Z (Z.sqrt (Qfloor (a * inject_Z (10 ^ 24)))) / inject_Z (10 ^ 12).

(** Small-angle stand-ins for [Math]: adequate for fixes a few hundred
    metres apart, which is all the examples use. *)
Definition smallAngle : MathLib :=
  {| Math_PI := 355 # 113;
     Math_sin := fun x => x - x * x * x / 6;
     Math_cos := fun x => 1 - x * x / 2;
     Math_sqrt := sqrt12;
     Math_atan2 := fun y x => if Qeq_bool x 0 then (355 # 226) else y / x |}.

(** The year of an epoch time in the same calendar. *)
Definition utcYear (d : Date) : Z :=
  let days := (getTime d / 86400000)%Z in
  let z := (days + 719468)%Z in
  let era := (z / 146097)%Z in
  let doe := (z - era * 146097)%Z in
  let yoe := ((doe - doe / 1460 + doe / 36524 - doe / 146096) / 365)%Z in
  let doy := (doe - (365 * yoe + yoe / 4 - yoe / 100))%Z in
  let mp := ((5 * doy + 2) / 153)%Z in
  (yoe + era * 400 + (if (mp <? 10)%Z then 0 else 1))%Z.

End Host.

(** ** Concrete inputs *)

Module Examples.

Local Open Scope string_scope.

(** 14 November 2023, half a minute later, and 2 December 2023 (UTC). *)
Definition signup : Date := newDate 1700000000000.
Definition sameMonth : Date := newDate 1700000030000.
Definition nextMonth : Date := newDate 1701500000000.

Definition ada : User := mkUser "u1" "ada@example.org".

(** A freshly created account. *)
Definition newcomer : UserProfile :=
  createDefaultProfile ada "Ada" "ABC123" signup.

(** An account with some history in the current month. *)
Definition veteran : UserProfile :=
  {| profileUid := "u1";
     email := "ada@example.org";
     displayName := "Ada";
     joinedCircles := ["ABC123"];
     safetyScore := 90;
     totalRewards := 500;
     weeklyRewards := 120;
     monthlyRewards := 40;
     safetyStreak := 0;
     speedViolations := 3;
     lastSpeedCheck := Some signup;
     averageSpeed := 55;
     totalDrivingTime := 600;
     hasCompletedEmergencySetup := true |}.

Definition signedIn (p : UserProfile) : AuthState :=
  mkAuthState (Some ada) (Some p) [].

Definition storeAccepts : string -> UserDoc -> Result unit :=
  fun _ _ => Ok tt.

Definition storeRejects : string -> UserDoc -> Result unit :=
  fun _ _ => Throw "unavailable".

(** A stationary device that reports no speed. *)
Definition parked : Coords.t :=
  Coords.mk 40 (- (74)) 5 None None None.

Definition idle : Tracker := mkTracker [] [] None medium.

Definition parkedFix (now : Z) : Fix := mkFix parked now 80 now now.

End Examples.

Import Examples.

(** Eleven fixes, one every three seconds, from a cleared tracker. *)
Definition elevenFixes : list Fix :=
  map (fun k => parkedFix (1700000000000 + 3000 * Z.of_nat k)) (seq 0 11).

(** More concrete inputs: a long-standing account, a sharing session, a
    published sample, stored documents and two stores. *)
Module Cases.

Local Open Scope string_scope.

(** Forty hours recorded at an average of 60 mph. *)
Definition seasoned : UserProfile :=
  {| profileUid := "u1";
     email := "ada@example.org";
     displayName := "Ada";
     joinedCircles := ["ABC123"];
     safetyScore := 97;
     totalRewards := 100;
     weeklyRewards := 20;
     monthlyRewards := 60;
     safetyStreak := 0;
     speedViolations := 0;
     lastSpeedCheck := Some signup;
     averageSpeed := 60;
     totalDrivingTime := 2400;
     hasCompletedEmergencySetup := true |}.

Definition halfMinuteAt (mph : number) : SpeedData := mkSpeedData mph (5 # 10).

(** 14 November 2024 and 14 January 2025, noon UTC. *)
Definition aYearOn : Date := newDate 1731585600000.
Definition inJanuary : Date := newDate 1736856000000.

(** The [veteran] account with no [lastSpeedCheck] recorded. *)
Definition undated : UserProfile :=
  {| profileUid := "u1";
     email := "ada@example.org";
     displayName := "Ada";
     joinedCircles := ["ABC123"];
     safetyScore := 90;
     totalRewards := 500;
     weeklyRewards := 120;
     monthlyRewards := 40;
     safetyStreak := 0;
     speedViolations := 3;
     lastSpeedCheck := None;
     averageSpeed := 55;
     totalDrivingTime := 600;
     hasCompletedEmergencySetup := true |}.

(** The calls of a session: two hours above 75 mph, stored, and a write
    that is rejected; [lastCall] is a stored hour at 60 mph in December. *)
Definition sessionCalls : list Call :=
  [mkCall sameMonth storeAccepts (mkSpeedData 90 120);
   mkCall sameMonth storeRejects (mkSpeedData 30 45)].

Definition lastCall : Call :=
  mkCall nextMonth storeAccepts (mkSpeedData 60 60).

(** A session that is sharing, last rewarded at [signup]. *)
Definition sharing : LocationState :=
  mkLocationState idle true None (Some signup).

(** A sample at 30 mph. *)
Definition cruising : LocationData.t :=
  LocationData.mk 40 (- (74)) 30 80 true 1700000040000 5 None None.

Definition tenSecondsOn : Date := newDate 1700000010000.
Definition fortySecondsOn : Date := newDate 1700000040000.
Definition tenHoursOn : Date := newDate 1700036000000.

Definition locationsAccepted : string -> LocationDoc -> Result unit :=
  fun _ _ => Ok tt.

Definition locationsRejected : string -> LocationDoc -> Result unit :=
  fun _ _ => Throw "offline".

(** A device reporting 1.3 m/s, which is 3 mph, and one reporting 10 m/s. *)
Definition strolling : Coords.t :=
  Coords.mk 40 (- (74)) 5 None None (Some (13 # 10)).

Definition driving : Coords.t :=
  Coords.mk 40 (- (74)) 5 None None (Some 10).

Definition drivingFix (now : Z) : Fix := mkFix driving now 80 now now.

Definition fourDrivingFixes : list Fix :=
  map (fun k => drivingFix (1700000000000 + 1000 * Z.of_nat k)) (seq 0 4).

(** A device that reports no speed, first at the place of [parked], then
    six seconds later a thousandth of a degree further north. *)
Definition movedNorth : Coords.t :=
  Coords.mk (40 + (1 # 1000)) (- (74)) 5 None None None.

Definition twoSilentFixes : list Fix :=
  [mkFix parked 1700000000000 80 1700000000000 1700000000000;
   mkFix movedNorth 1700000006000 80 1700000006000 1700000006000].

(** Stored documents of a member whose phone is dead and whose score has
    dropped to 0. *)
Definition exhausted : StoredLocation :=
  mkStoredLocation (Some 40) (Some (- (74))) (Some 0) (Some 0)
                   (Some signup) (Some 0).

Definition unscored : StoredUser :=
  mkStoredUser (Some "Bob") (Some "bob@example.org") (Some 0) (Some 0).

(** A store with one circle "XYZ789" of one member that accepts every
    write, and one that rejects profile updates. *)
Definition openStore : Backend :=
  mkBackend (fun _ => Ok (Some ["u9"])) (fun _ => Ok tt).

Definition grownStore : Backend :=
  mkBackend (fun _ => Ok (Some ["u9"; "u1"])) (fun _ => Ok tt).

Definition profileLocked : Backend :=
  mkBackend (fun _ => Ok (Some ["u9"]))
            (fun w => match w with
                      | SetCircleMembers _ _ => Ok tt
                      | SetJoinedCircles _ _ => Throw "permission-denied"
                      end).

End Cases.

Import Cases.

(** * Properties *)

(** ** Comparisons, [max] and [min] *)

Lemma leb_le (x y : number) : Num.leb x y = true <-> x <= y.
Proof. apply Qle_bool_iff. Qed.

Lemma leb_gt (x y : number) : Num.leb x y = false <-> y < x.
Proof.
  unfold Num.leb. split; intro H.
  - apply Qnot_le_lt. intro Hle. apply Qle_bool_iff in Hle. congruence.
  - destruct (Qle_bool x y) eqn:E; [|reflexivity].
    apply Qle_bool_iff in E. lra.
Qed.

Lemma gtb_lt (x y : number) : Num.gtb x y = true <-> y < x.
Proof.
  unfold Num.gtb, Num.ltb. rewrite negb_true_iff. apply leb_gt.
Qed.

Lemma gtb_le (x y : number) : Num.gtb x y = false <-> x <= y.
Proof.
  unfold Num.gtb, Num.ltb. rewrite negb_false_iff. apply leb_le.
Qed.

Lemma geb_le (x y : number) : Num.geb x y = true <-> y <= x.
Proof. unfold Num.geb. apply leb_le. Qed.

Lemma geb_lt (x y : number) : Num.geb x y = false <-> x < y.
Proof. unfold Num.geb. apply leb_gt. Qed.

Lemma max_lower (x y : number) : x <= Num.max x y.
Proof.
  unfold Num.max. destruct (Num.leb x y) eqn:E.
  - now apply leb_le.
  - lra.
Qed.

Lemma max_upper (x y : number) : y <= Num.max x y.
Proof.
  unfold Num.max. destruct (Num.leb x y) eqn:E.
  - lra.
  - apply leb_gt in E. lra.
Qed.

Lemma max_cases (x y : number) :
  (x <= y /\ Num.max x y = y) \/ (y < x /\ Num.max x y = x).
Proof.
  unfold Num.max. destruct (Num.leb x y) eqn:E.
  - left. split; [now apply leb_le | reflexivity].
  - right. split; [now apply leb_gt | reflexivity].
Qed.

Lemma min_cases (x y : number) :
  (x <= y /\ Num.min x y = x) \/ (y < x /\ Num.min x y = y).
Proof.
  unfold Num.min. destruct (Num.leb x y) eqn:E.
  - left. split; [now apply leb_le | reflexivity].
  - right. split; [now apply leb_gt | reflexivity].
Qed.

(** The clamp of the safety score. *)
Lemma clamp_range (x : number) :
  0 <= Num.max 0 (Num.min 100 x) /\ Num.max 0 (Num.min 100 x) <= 100.
Proof.
  split; [apply max_lower|].
  destruct (max_cases 0 (Num.min 100 x)) as [[_ ->] | [_ ->]]; [|lra].
  destruct (min_cases 100 x) as [[_ ->] | [H ->]]; lra.
Qed.

(** ** The rule cascade *)

Section RewardFacts.

Variable getMonth : Date -> Z.

Lemma monthlyReset_same (now : Date) (p : UserProfile) :
  getMonth now = getMonth (lastCheck p) ->
  monthlyReset getMonth now p = (monthlyRewards p, speedViolations p).
Proof.
  intro H. unfold monthlyReset. rewrite H, Z.eqb_refl. reflexivity.
Qed.

Lemma monthlyReset_rollover (now : Date) (p : UserProfile) :
  getMonth now <> getMonth (lastCheck p) ->
  monthlyReset getMonth now p = (0, 0).
Proof.
  intro H. unfold monthlyReset.
  apply Z.eqb_neq in H. rewrite H. reflexivity.
Qed.

(** Below thirty hours of driving the monthly bonus does nothing. *)
Lemma monthlyBonus_off (p : UserProfile) (data : SpeedData) (d : Deltas) :
  totalDrivingTime p + duration data < 30 * 60 ->
  monthlyBonus p data d = d.
Proof.
  intro H. unfold monthlyBonus.
  assert (E : Num.geb (totalTime p data) (30 * 60) = false)
    by (apply geb_lt; exact H).
  rewrite E. reflexivity.
Qed.

(** The bonus never touches the score change or the violation count. *)
Lemma monthlyBonus_frame (p : UserProfile) (data : SpeedData) (d : Deltas) :
  safetyScoreChange (monthlyBonus p data d) = safetyScoreChange d
  /\ newSpeedViolations (monthlyBonus p data d) = newSpeedViolations d.
Proof.
  unfold monthlyBonus.
  destruct (Num.geb _ _); [|now split].
  destruct (Num.leb _ _); [now split|].
  destruct (Num.gtb _ _); now split.
Qed.

(** In the exercise band the earlier rule's reward and score change are
    replaced, its violation count is kept. *)
Lemma exerciseBand_in (data : SpeedData) (d : Deltas) :
  3 <= speed data -> speed data <= 15 ->
  exerciseBand data d
  = mkDeltas (Num.floor (duration data / 60) * 5) (1 # 10)
             (newSpeedViolations d).
Proof.
  intros H3 H15. unfold exerciseBand.
  apply geb_le in H3. apply leb_le in H15. rewrite H3, H15. reflexivity.
Qed.


(** Only a speed above 75 raises the violation count. *)
Lemma speedBand_violations (v : number) (data : SpeedData) :
  newSpeedViolations (speedBand v data)
  = if Num.gtb (speed data) 75 then v + 1 else v.
Proof.
  unfold speedBand.
  destruct (Num.leb (speed data) 65) eqn:E65.
  - apply leb_le in E65.
    assert (E75 : Num.gtb (speed data) 75 = false) by (apply gtb_le; lra).
    rewrite E75. reflexivity.
  - destruct (Num.gtb (speed data) 75); [reflexivity|].
    destruct (Num.gtb (speed data) 65); reflexivity.
Qed.

Lemma deltas_violations (now : Date) (p : UserProfile) (data : SpeedData) :
  newSpeedViolations (deltas getMonth now p data)
  = if Num.gtb (speed data) 75
    then snd (monthlyReset getMonth now p) + 1
    else snd (monthlyReset getMonth now p).
Proof.
  unfold deltas.
  rewrite (proj2 (monthlyBonus_frame p data _)).
  rewrite <- speedBand_violations.
  unfold exerciseBand. destruct (_ && _); reflexivity.
Qed.


(** The reward change does not depend on the clock. *)
Lemma deltas_reward_clock (now now' : Date) (p : UserProfile)
  (data : SpeedData) :
  rewardChange (deltas getMonth now p data)
  = rewardChange (deltas getMonth now' p data).
Proof.
  unfold deltas, monthlyBonus, exerciseBand, speedBand.
  destruct (Num.geb (totalTime p data) _);
    [destruct (Num.leb (newAverageSpeed p data) _);
     [|destruct (Num.gtb (newAverageSpeed p data) _)]|];
    destruct (_ && _); try reflexivity;
    destruct (Num.leb (speed data) _); try reflexivity;
    destruct (Num.gtb (speed data) 75); try reflexivity;
    destruct (Num.gtb (speed data) 65); reflexivity.
Qed.

(** ** One call *)

(** The call never throws: it returns the state it was given, the state
    with an extra console line, or the state with the updated profile. *)
Lemma updateUserRewards_cases (now : Date)
  (updateDoc : string -> UserDoc -> Result unit) (st : AuthState)
  (data : SpeedData) :
  exists st', updateUserRewards getMonth now updateDoc st data = Ok st'
    /\ currentUser st' = currentUser st
    /\ (userProfile st' = userProfile st
        \/ exists p, userProfile st = Some p
             /\ userProfile st' = Some (updatedProfile getMonth now p data)).
Proof.
  unfold updateUserRewards.
  destruct (currentUser st) as [user|] eqn:Eu;
    [|exists st; rewrite Eu; auto].
  destruct (userProfile st) as [p|] eqn:Ep;
    [|exists st; rewrite Eu, Ep; auto].
  cbv zeta.
  destruct (updateDoc _ _) as [[]|e]; simpl.
  - eexists. split; [reflexivity|]. simpl. split; [exact Eu|].
    right. exists p. auto.
  - eexists. split; [reflexivity|]. simpl. auto.
Qed.

Lemma updateUserRewards_stored (now : Date)
  (updateDoc : string -> UserDoc -> Result unit) (st : AuthState)
  (data : SpeedData) (user : User) (p : UserProfile) :
  currentUser st = Some user ->
  userProfile st = Some p ->
  updateDoc (uid user)
    (mkUserDoc (updatedProfile getMonth now p data) serverTimestamp)
  = Ok tt ->
  updateUserRewards getMonth now updateDoc st data
  = Ok (setUserProfile st (updatedProfile getMonth now p data)).
Proof.
  intros Eu Ep Hd. unfold updateUserRewards. rewrite Eu, Ep.
  cbv zeta. rewrite Hd. reflexivity.
Qed.

Lemma updateUserRewards_rejected (now : Date)
  (updateDoc : string -> UserDoc -> Result unit) (st : AuthState)
  (data : SpeedData) (user : User) (p : UserProfile) (e : string) :
  currentUser st = Some user ->
  userProfile st = Some p ->
  updateDoc (uid user)
    (mkUserDoc (updatedProfile getMonth now p data) serverTimestamp)
  = Throw e ->
  updateUserRewards getMonth now updateDoc st data
  = Ok (console_error st ("Error updating user rewards: " ++ e)%string).
Proof.
  intros Eu Ep Hd. unfold updateUserRewards. rewrite Eu, Ep.
  cbv zeta. rewrite Hd. reflexivity.
Qed.

End RewardFacts.

Section RewardClaims.

Variable getMonth : Date -> Z.

Lemma deltas_score_clock (now now' : Date) (p : UserProfile)
  (data : SpeedData) :
  safetyScoreChange (deltas getMonth now p data)
  = safetyScoreChange (deltas getMonth now' p data).
Proof.
  unfold deltas.
  rewrite !(proj1 (monthlyBonus_frame _ _ _)).
  unfold exerciseBand, speedBand.
  destruct (_ && _); try reflexivity;
    destruct (Num.leb (speed data) _); try reflexivity;
    destruct (Num.gtb (speed data) 75); try reflexivity;
    destruct (Num.gtb (speed data) 65); reflexivity.
Qed.

(** C1, as the code runs it.  With no month rollover and fewer than thirty
    accumulated hours, one hour ([duration = 60] minutes) at 60 mph gives
    [rewardChange = 8] (not 480), [safetyScoreChange = 0.2] and no new
    violation; one hour at 90 mph gives [rewardChange = -15] (not -900),
    [safetyScoreChange = -0.8] and exactly one more violation.  The
    source's comments announce 8 and 15 tokens per minute, the code pays
    them per [Math.floor(duration / 60)], that is per full hour. *)
Theorem one_hour_observation_deltas (now : Date) (p : UserProfile) :
  getMonth now = getMonth (lastCheck p) ->
  totalDrivingTime p + 60 < 30 * 60 ->
  let slow := deltas getMonth now p (mkSpeedData 60 60) in
  let fast := deltas getMonth now p (mkSpeedData 90 60) in
  (rewardChange slow == 8 /\ ~ rewardChange slow == 480)
  /\ safetyScoreChange slow == 2 # 10
  /\ newSpeedViolations slow = speedViolations p
  /\ (rewardChange fast == - (15) /\ ~ rewardChange fast == - (900))
  /\ safetyScoreChange fast == - (8 # 10)
  /\ newSpeedViolations fast = speedViolations p + 1.
Proof.
  intros Hm Ht. cbv zeta. unfold deltas.
  rewrite !monthlyBonus_off by exact Ht.
  rewrite (monthlyReset_same getMonth now p Hm).
  repeat split; try reflexivity; intro H; discriminate H.
Qed.

(** C2, as the code runs it.  In the exercise band ([3 <= speed <= 15])
    the reward and the score change of the speed band are replaced by
    [Math.floor(duration / 60) * 5] and [0.1]; at [speed = 10],
    [duration = 30] that is a reward change of 0, not the 150 the
    source's "5 CDT per minute for exercise" announces. *)
Theorem exercise_observation_deltas (now : Date) (p : UserProfile) :
  totalDrivingTime p + 30 < 30 * 60 ->
  let walk := deltas getMonth now p (mkSpeedData 10 30) in
  (rewardChange walk == 0 /\ ~ rewardChange walk == 150)
  /\ safetyScoreChange walk == 1 # 10
  /\ (forall (data : SpeedData) (band : Deltas),
        3 <= speed data -> speed data <= 15 ->
        rewardChange (exerciseBand data band)
        = Num.floor (duration data / 60) * 5
        /\ safetyScoreChange (exerciseBand data band) = 1 # 10).
Proof.
  intros Ht. cbv zeta. unfold deltas.
  rewrite monthlyBonus_off by exact Ht.
  repeat split; try reflexivity.
  - intro H; discriminate H.
  - rewrite exerciseBand_in by assumption. reflexivity.
  - rewrite exerciseBand_in by assumption. reflexivity.
Qed.

Lemma updateUserRewards_score (now : Date)
  (updateDoc : string -> UserDoc -> Result unit) (st : AuthState)
  (data : SpeedData) :
  scoreInRange st ->
  exists st', updateUserRewards getMonth now updateDoc st data = Ok st'
              /\ scoreInRange st'.
Proof.
  intro Hin.
  destruct (updateUserRewards_cases getMonth now updateDoc st data)
    as (st' & Hrun & _ & [Hsame | (p & _ & Hnew)]);
    exists st'; (split; [exact Hrun|]); unfold scoreInRange in *.
  - rewrite Hsame. exact Hin.
  - rewrite Hnew. simpl. apply clamp_range.
Qed.

(** C3.  Starting from a safety score in [[0, 100]], every run of
    [updateUserRewards] calls, whatever the speeds, durations, clock
    readings and store outcomes, completes and leaves the safety score in
    [[0, 100]].  (Durations need not even be non-negative.) *)
Theorem safetyScore_stays_in_range (calls : list Call) (st : AuthState) :
  scoreInRange st ->
  exists st', runCalls getMonth st calls = Ok st' /\ scoreInRange st'.
Proof.
  revert st. induction calls as [|c rest IH]; intros st Hin.
  - exists st. split; [reflexivity | exact Hin].
  - destruct (updateUserRewards_score (callNow c) (callUpdateDoc c) st
                (callData c) Hin) as (st1 & Hrun & Hin1).
    destruct (IH st1 Hin1) as (st2 & Hrest & Hin2).
    exists st2. split; [|exact Hin2].
    simpl. rewrite Hrun. simpl. exact Hrest.
Qed.


(** X30.  The month check where the month numbers differ.  Take the same
    profile and observation under two clock readings, one with the month
    number of [lastSpeedCheck] and one with another month number.  Under
    the other number the working copies of [monthlyRewards] and
    [speedViolations] restart from 0, under the same number they continue
    from the stored values; [totalRewards], [weeklyRewards],
    [averageSpeed], [totalDrivingTime] (and the safety score) come out the
    same under both readings, computed from the stored values. *)
Theorem month_rollover_resets (nowSame nowNew : Date) (p : UserProfile)
  (data : SpeedData) :
  getMonth nowSame = getMonth (lastCheck p) ->
  getMonth nowNew <> getMonth (lastCheck p) ->
  let kept := updatedProfile getMonth nowSame p data in
  let rolled := updatedProfile getMonth nowNew p data in
  let delta := rewardChange (deltas getMonth nowNew p data) in
  let strike := if Num.gtb (speed data) 75 then 1 else 0 in
  monthlyReset getMonth nowNew p = (0, 0)
  /\ monthlyReset getMonth nowSame p = (monthlyRewards p, speedViolations p)
  /\ monthlyRewards rolled = 0 + Num.max 0 delta
  /\ monthlyRewards kept = monthlyRewards p + Num.max 0 delta
  /\ speedViolations rolled == 0 + strike
  /\ speedViolations kept == speedViolations p + strike
  /\ totalRewards rolled = Num.max 0 (totalRewards p + delta)
  /\ weeklyRewards rolled = weeklyRewards p + Num.max 0 delta
  /\ averageSpeed rolled = newAverageSpeed p data
  /\ totalDrivingTime rolled = totalDrivingTime p + duration data
  /\ totalRewards rolled = totalRewards kept
  /\ weeklyRewards rolled = weeklyRewards kept
  /\ averageSpeed rolled = averageSpeed kept
  /\ totalDrivingTime rolled = totalDrivingTime kept
  /\ safetyScore rolled = safetyScore kept.
Proof.
  intros Hs Hn. cbv zeta.
  pose proof (monthlyReset_same getMonth nowSame p Hs) as Rs.
  pose proof (monthlyReset_rollover getMonth nowNew p Hn) as Rn.
  pose proof (deltas_reward_clock getMonth nowSame nowNew p data) as Er.
  pose proof (deltas_score_clock nowSame nowNew p data) as Es.
  unfold updatedProfile. simpl.
  rewrite !deltas_violations, Rs, Rn, Er, Es. simpl.
  repeat split; try reflexivity;
    destruct (Num.gtb (speed data) 75); lra.
Qed.

(** C6, as the code runs it.  The month check compares month numbers
    ([getMonth], 0 to 11) and nothing else: whenever the number of [now]
    equals that of [lastSpeedCheck] (of 1 January 1970 when none is
    recorded) nothing is reset, also when the two dates lie in different
    calendar months, a year or more apart: [monthlyRewards] and
    [speedViolations] continue from the stored values. *)
Theorem rollover_compares_month_numbers (now : Date) (p : UserProfile)
  (data : SpeedData) :
  getMonth now = getMonth (lastCheck p) ->
  let p' := updatedProfile getMonth now p data in
  let delta := rewardChange (deltas getMonth now p data) in
  let strike := if Num.gtb (speed data) 75 then 1 else 0 in
  monthlyReset getMonth now p = (monthlyRewards p, speedViolations p)
  /\ monthlyRewards p' = monthlyRewards p + Num.max 0 delta
  /\ speedViolations p' == speedViolations p + strike.
Proof.
  intro Hm. cbv zeta.
  pose proof (monthlyReset_same getMonth now p Hm) as R.
  split; [exact R|]. simpl.
  rewrite deltas_violations, R. simpl.
  split; [reflexivity|].
  destruct (Num.gtb (speed data) 75); lra.
Qed.

(** C9.  A call never throws.  When the store rejects the write, the call
    returns normally with [currentUser] and [userProfile] (hence every
    reward field) exactly as they were; only a console line is added. *)
Theorem persistence_failure_discards (now : Date)
  (updateDoc : string -> UserDoc -> Result unit) (st : AuthState)
  (data : SpeedData) (user : User) (p : UserProfile) (e : string) :
  currentUser st = Some user ->
  userProfile st = Some p ->
  updateDoc (uid user)
    (mkUserDoc (updatedProfile getMonth now p data) serverTimestamp)
  = Throw e ->
  exists st',
    updateUserRewards getMonth now updateDoc st data = Ok st'
    /\ userProfile st' = Some p
    /\ currentUser st' = Some user
    /\ console st'
       = (console st ++ ["Error updating user rewards: " ++ e]%string)%list.
Proof.
  intros Eu Ep Hd.
  exists (console_error st ("Error updating user rewards: " ++ e)%string).
  split; [now apply updateUserRewards_rejected with (user := user) (p := p)|].
  simpl. auto.
Qed.


End RewardClaims.

(** ** The tracker *)

Lemma slice_last_length {A : Type} (n : nat) (l : list A) :
  length (slice_last n l) = Nat.min n (length l).
Proof. unfold slice_last. rewrite length_skipn. lia. Qed.

(** A list within the bound is kept whole; from a longer one the oldest
    entries (the front) go. *)
Lemma slice_last_short {A : Type} (n : nat) (l : list A) :
  (length l <= n)%nat -> slice_last n l = l.
Proof.
  intro H. unfold slice_last.
  replace (length l - n)%nat with 0%nat by lia. reflexivity.
Qed.

Lemma slice_last_app {A : Type} (n : nat) (old l : list A) :
  length l = n -> slice_last n (old ++ l) = l.
Proof.
  intro H. unfold slice_last. rewrite length_app.
  replace (length old + length l - n)%nat with (length old + 0)%nat by lia.
  rewrite skipn_app, Nat.add_0_r, skipn_all.
  replace (length old - length old)%nat with 0%nat by lia. reflexivity.
Qed.

Section TrackerClaims.

Variable M : MathLib.

Lemma smoothSpeed_history (history : list number) (newSpeed : number) :
  fst (smoothSpeed history newSpeed) = slice_last 5 (history ++ [newSpeed]).
Proof.
  unfold smoothSpeed. cbv zeta.
  destruct (weigh _ _ _) as [weightedSum totalWeight]. reflexivity.
Qed.

Lemma smoothSpeed_length (history : list number) (newSpeed : number) :
  (length (fst (smoothSpeed history newSpeed)) <= 5)%nat.
Proof. rewrite smoothSpeed_history, slice_last_length. lia. Qed.

Lemma pushMovement_length (prev : list Movement.t) (m : Movement.t) :
  length (pushMovement prev m) = (Nat.min 10 (length prev) + 1)%nat.
Proof.
  unfold pushMovement. rewrite length_app, slice_last_length. reflexivity.
Qed.

Lemma onPosition_histories (tr : Tracker) (coords : Coords.t) (now : Z)
  (battery : number) (detectNow stamp : Z) :
  let tr' := fst (onPosition M tr coords now battery detectNow stamp) in
  movementHistory tr'
  = pushMovement (movementHistory tr)
      (Movement.mk now (Coords.latitude coords) (Coords.longitude coords))
  /\ speedHistory tr'
     = fst (smoothSpeed (speedHistory tr)
              (calculatedSpeed M (lastPosition tr) coords now)).
Proof.
  cbv zeta. unfold onPosition. cbv zeta.
  destruct (smoothSpeed _ _) as [history smoothed]. simpl. split; reflexivity.
Qed.

Lemma processFixes_movement_length (fixes : list Fix) (tr : Tracker) :
  length (movementHistory (processFixes M tr fixes))
  = match fixes with
    | [] => length (movementHistory tr)
    | _ :: _ =>
        Nat.min 11 (Nat.min 10 (length (movementHistory tr)) + length fixes)
    end.
Proof.
  revert tr. induction fixes as [|f rest IH]; intro tr; [reflexivity|].
  simpl processFixes. rewrite IH.
  rewrite (proj1 (onPosition_histories tr _ _ _ _ _)), pushMovement_length.
  destruct rest; simpl length; lia.
Qed.

Lemma processFixes_speed_length (fixes : list Fix) (tr : Tracker) :
  (length (speedHistory tr) <= 5)%nat ->
  (length (speedHistory (processFixes M tr fixes)) <= 5)%nat.
Proof.
  revert tr. induction fixes as [|f rest IH]; intros tr H; [exact H|].
  simpl. apply IH.
  rewrite (proj2 (onPosition_histories tr _ _ _ _ _)).
  apply smoothSpeed_length.
Qed.

(** C5, as the code runs it.  [speedHistory] never grows past 5 entries,
    and both histories drop their oldest entry first; but
    [movementHistory] is cut to its last 10 entries before the new one is
    appended, so from the eleventh fix on it holds 11 entries, one more
    than the "Keep last 10 positions" of the source's comment. *)
Theorem movementHistory_holds_eleven (tr : Tracker) (fixes : list Fix) :
  (11 <= length fixes)%nat ->
  (length (speedHistory tr) <= 5)%nat ->
  length (movementHistory (processFixes M tr fixes)) = 11%nat
  /\ (length (speedHistory (processFixes M tr fixes)) <= 5)%nat
  /\ (forall oldest kept newest,
        length kept = 10%nat ->
        pushMovement (oldest :: kept) newest = kept ++ [newest])
  /\ (forall oldest kept newest,
        length kept = 4%nat ->
        fst (smoothSpeed (oldest :: kept) newest) = kept ++ [newest]).
Proof.
  intros Hn Hs. split; [|split; [|split]].
  - rewrite processFixes_movement_length.
    destruct fixes; simpl length in *; lia.
  - now apply processFixes_speed_length.
  - intros oldest kept newest Hk. unfold pushMovement.
    change (oldest :: kept) with ([oldest] ++ kept).
    now rewrite slice_last_app.
  - intros oldest kept newest Hk. rewrite smoothSpeed_history.
    change ((oldest :: kept) ++ [newest])
      with ([oldest] ++ (kept ++ [newest])).
    apply slice_last_app. rewrite length_app, Hk. reflexivity.
Qed.

Lemma calculatedSpeed_unreported (last : option LastPosition.t)
  (coords : Coords.t) (now : Z) :
  unreported coords ->
  calculatedSpeed M last coords now
  = match last with
    | Some lp =>
        if (now - LastPosition.time lp >? 2000)%Z
        then calculateSpeed M (LastPosition.lat lp) (LastPosition.lon lp)
               (Coords.latitude coords) (Coords.longitude coords)
               (now - LastPosition.time lp)
        else LastPosition.speed lp
    | None => 0
    end.
Proof.
  unfold unreported, calculatedSpeed. cbv zeta.
  destruct (Coords.speed coords) as [s|]; [|reflexivity].
  intro H. apply geb_lt in H. rewrite H. reflexivity.
Qed.

(** [calculateSpeed] is the rejection rule applied to the haversine
    distance over the elapsed seconds, in miles per hour. *)
Lemma calculateSpeed_rejection (lat1 lon1 lat2 lon2 : number) (timeDiff : Z) :
  let speedMph :=
    calculateDistance M lat1 lon1 lat2 lon2 / (inject_Z timeDiff / 1000)
    * (2237 # 1000) in
  calculateSpeed M lat1 lon1 lat2 lon2 timeDiff
  = if Num.gtb speedMph 150
       || (Num.gtb speedMph 80 && (timeDiff <? 5000)%Z)
    then 0
    else Num.max 0 (Num.round speedMph).
Proof. reflexivity. Qed.

(** C7, amended.  The candidate the callback pushes onto the speed history
    is computed from the fix and from the [lastPosition] of the state the
    callback reads.  A reported non-negative speed gives
    [round(speed * 2.237)].  Otherwise, when that [lastPosition] is set,
    MORE than 2000 ms since its time give [calculateSpeed], which is 0 when
    the derived speed exceeds 150 mph, or exceeds 80 mph with under 5000 ms
    elapsed, and the derived speed rounded (not below 0) otherwise; 2000 ms
    or fewer give the smoothed speed it holds.  When it is not set the
    candidate is 0. *)
Theorem candidate_speed_selection (tr : Tracker) (coords : Coords.t)
  (now : Z) (battery : number) (detectNow stamp : Z) :
  let last := lastPosition tr in
  let candidate := calculatedSpeed M last coords now in
  speedHistory (fst (onPosition M tr coords now battery detectNow stamp))
  = slice_last 5 (speedHistory tr ++ [candidate])
  /\ (forall s,
        Coords.speed coords = Some s -> 0 <= s ->
        candidate = Num.round (s * (2237 # 1000)))
  /\ (forall lp,
        unreported coords -> last = Some lp ->
        (2000 < now - LastPosition.time lp)%Z ->
        let timeDiff := (now - LastPosition.time lp)%Z in
        let derived :=
          calculateDistance M (LastPosition.lat lp) (LastPosition.lon lp)
            (Coords.latitude coords) (Coords.longitude coords)
          / (inject_Z timeDiff / 1000) * (2237 # 1000) in
        let implausible :=
          150 < derived \/ (80 < derived /\ (timeDiff < 5000)%Z) in
        candidate
        = calculateSpeed M (LastPosition.lat lp) (LastPosition.lon lp)
            (Coords.latitude coords) (Coords.longitude coords) timeDiff
        /\ (implausible -> candidate = 0)
        /\ (~ implausible -> candidate = Num.max 0 (Num.round derived)))
  /\ (forall lp,
        unreported coords -> last = Some lp ->
        (now - LastPosition.time lp <= 2000)%Z ->
        candidate = LastPosition.speed lp)
  /\ (unreported coords -> last = None -> candidate = 0).
Proof.
  cbv zeta. split; [|split; [|split; [|split]]].
  - rewrite (proj2 (onPosition_histories tr coords now battery detectNow
                      stamp)).
    apply smoothSpeed_history.
  - intros s Es Hs. unfold calculatedSpeed. cbv zeta. rewrite Es.
    apply geb_le in Hs. rewrite Hs. reflexivity.
  - intros lp Hu Hl Ht. cbv zeta. rewrite Hl.
    rewrite (calculatedSpeed_unreported _ _ _ Hu).
    assert (E : (now - LastPosition.time lp >? 2000)%Z = true)
      by (apply Z.gtb_lt; exact Ht).
    rewrite E. split; [reflexivity|].
    rewrite calculateSpeed_rejection. cbv zeta.
    set (derived := _ * (2237 # 1000)).
    split.
    + intros [H150 | [H80 H5]].
      * apply gtb_lt in H150. rewrite H150. reflexivity.
      * apply gtb_lt in H80. apply Z.ltb_lt in H5.
        rewrite H80, H5, orb_true_r. reflexivity.
    + intro Hno.
      destruct (Num.gtb derived 150) eqn:E150.
      * exfalso. apply Hno. left. now apply gtb_lt.
      * destruct (Num.gtb derived 80) eqn:E80; [|reflexivity].
        destruct (now - LastPosition.time lp <? 5000)%Z eqn:E5;
          [|reflexivity].
        exfalso. apply Hno. right.
        split; [now apply gtb_lt | now apply Z.ltb_lt].
  - intros lp Hu Hl Ht. rewrite Hl.
    rewrite (calculatedSpeed_unreported _ _ _ Hu).
    assert (E : (now - LastPosition.time lp >? 2000)%Z = false).
    { rewrite Z.gtb_ltb. apply Z.ltb_ge. exact Ht. }
    rewrite E. reflexivity.
  - intros Hu Hl. rewrite Hl.
    now rewrite (calculatedSpeed_unreported _ _ _ Hu).
Qed.

(** C8.  The sample's [isDriving], computed as
    [(detectMovement(accuracy) || smoothedSpeed > 2) && smoothedSpeed > 2],
    equals [smoothedSpeed > 2]: what [detectMovement] answers has no
    influence. *)
Theorem isDriving_is_speed_above_two (tr : Tracker) (coords : Coords.t)
  (now : Z) (battery : number) (detectNow stamp : Z) :
  let sample := snd (onPosition M tr coords now battery detectNow stamp) in
  let smoothedSpeed :=
    snd (smoothSpeed (speedHistory tr)
           (calculatedSpeed M (lastPosition tr) coords now)) in
  LocationData.speed sample = smoothedSpeed
  /\ LocationData.isDriving sample
     = ((detectMovement M (movementHistory tr) detectNow
           (Coords.accuracy coords)
         || Num.gtb smoothedSpeed 2)
        && Num.gtb smoothedSpeed 2)
  /\ LocationData.isDriving sample = Num.gtb (LocationData.speed sample) 2.
Proof.
  cbv zeta. unfold onPosition. cbv zeta.
  destruct (smoothSpeed _ _) as [history smoothed]. simpl.
  split; [reflexivity|]. split; [reflexivity|].
  destruct (detectMovement _ _ _ _), (Num.gtb smoothed 2); reflexivity.
Qed.

End TrackerClaims.

(** ** The properties at concrete inputs *)

Lemma one_hour_observation_deltas_witness :
  Host.utcMonth sameMonth = Host.utcMonth (lastCheck newcomer)
  /\ totalDrivingTime newcomer + 60 < 30 * 60
  /\ rewardChange (deltas Host.utcMonth sameMonth newcomer (mkSpeedData 60 60))
     == 8
  /\ rewardChange (deltas Host.utcMonth sameMonth newcomer (mkSpeedData 90 60))
     == - (15).
Proof.
  assert (Hm : Host.utcMonth sameMonth = Host.utcMonth (lastCheck newcomer))
    by reflexivity.
  assert (Ht : totalDrivingTime newcomer + 60 < 30 * 60) by reflexivity.
  pose proof (one_hour_observation_deltas Host.utcMonth sameMonth newcomer
                Hm Ht) as H.
  cbv zeta in H.
  destruct H as ((H60 & _) & _ & _ & (H90 & _) & _).
  exact (conj Hm (conj Ht (conj H60 H90))).
Defined.

Lemma exercise_observation_deltas_witness :
  totalDrivingTime newcomer + 30 < 30 * 60
  /\ rewardChange (deltas Host.utcMonth sameMonth newcomer (mkSpeedData 10 30))
     == 0.
Proof.
  assert (Ht : totalDrivingTime newcomer + 30 < 30 * 60) by reflexivity.
  pose proof (exercise_observation_deltas Host.utcMonth sameMonth newcomer Ht)
    as H.
  cbv zeta in H. destruct H as ((H0 & _) & _).
  exact (conj Ht H0).
Defined.

(** Three hours above 75 mph in a row, the last one with the store down. *)
Lemma safetyScore_stays_in_range_witness :
  scoreInRange (signedIn newcomer)
  /\ exists st',
      runCalls Host.utcMonth (signedIn newcomer)
        [mkCall sameMonth storeAccepts (mkSpeedData 90 60);
         mkCall sameMonth storeAccepts (mkSpeedData 90 60);
         mkCall nextMonth storeRejects (mkSpeedData 90 60)]
      = Ok st'
      /\ scoreInRange st'.
Proof.
  assert (Hin : scoreInRange (signedIn newcomer)).
  { unfold scoreInRange. simpl. split; discriminate. }
  split; [exact Hin|].
  exact (safetyScore_stays_in_range Host.utcMonth _ _ Hin).
Defined.


Lemma month_rollover_resets_witness :
  Host.utcMonth sameMonth = Host.utcMonth (lastCheck veteran)
  /\ Host.utcMonth nextMonth <> Host.utcMonth (lastCheck veteran)
  /\ monthlyReset Host.utcMonth nextMonth veteran = (0, 0)
  /\ totalRewards
       (updatedProfile Host.utcMonth nextMonth veteran (mkSpeedData 60 60))
     = totalRewards
         (updatedProfile Host.utcMonth sameMonth veteran (mkSpeedData 60 60)).
Proof.
  assert (Hs : Host.utcMonth sameMonth = Host.utcMonth (lastCheck veteran))
    by reflexivity.
  assert (Hn : Host.utcMonth nextMonth <> Host.utcMonth (lastCheck veteran))
    by (intro H; discriminate H).
  pose proof (month_rollover_resets Host.utcMonth sameMonth nextMonth veteran
                (mkSpeedData 60 60) Hs Hn) as H.
  cbv zeta in H.
  destruct H as (Hreset & _ & _ & _ & _ & _ & _ & _ & _ & _ & Htotal & _).
  exact (conj Hs (conj Hn (conj Hreset Htotal))).
Defined.

(** A year after the last check, and a profile without any check read in
    a January: other calendar months, the same month numbers, no reset. *)
Lemma rollover_compares_month_numbers_witness :
  (Host.utcMonth aYearOn = Host.utcMonth (lastCheck veteran)
   /\ Host.utcYear aYearOn <> Host.utcYear (lastCheck veteran)
   /\ monthlyReset Host.utcMonth aYearOn veteran
      = (monthlyRewards veteran, speedViolations veteran))
  /\ (Host.utcMonth inJanuary = Host.utcMonth (lastCheck undated)
      /\ Host.utcYear inJanuary <> Host.utcYear (lastCheck undated)
      /\ monthlyReset Host.utcMonth inJanuary undated
         = (monthlyRewards undated, speedViolations undated)).
Proof.
  assert (H1 : Host.utcMonth aYearOn = Host.utcMonth (lastCheck veteran))
    by reflexivity.
  assert (H2 : Host.utcMonth inJanuary = Host.utcMonth (lastCheck undated))
    by reflexivity.
  split.
  - split; [exact H1|]. split; [intro H; discriminate H|].
    exact (proj1 (rollover_compares_month_numbers Host.utcMonth aYearOn
                    veteran (mkSpeedData 60 60) H1)).
  - split; [exact H2|]. split; [intro H; discriminate H|].
    exact (proj1 (rollover_compares_month_numbers Host.utcMonth inJanuary
                    undated (mkSpeedData 60 60) H2)).
Defined.

Lemma persistence_failure_discards_witness :
  exists st',
    updateUserRewards Host.utcMonth sameMonth storeRejects (signedIn veteran)
      (mkSpeedData 90 60) = Ok st'
    /\ userProfile st' = Some veteran
    /\ currentUser st' = Some ada
    /\ console st'
       = (console (signedIn veteran)
          ++ ["Error updating user rewards: " ++ "unavailable"]%string)%list.
Proof.
  exact (persistence_failure_discards Host.utcMonth sameMonth storeRejects
           (signedIn veteran) (mkSpeedData 90 60) ada veteran "unavailable"
           eq_refl eq_refl eq_refl).
Defined.


Lemma movementHistory_holds_eleven_witness :
  (11 <= length elevenFixes)%nat
  /\ (length (speedHistory idle) <= 5)%nat
  /\ length (movementHistory (processFixes Host.smallAngle idle elevenFixes))
     = 11%nat.
Proof.
  assert (Hn : (11 <= length elevenFixes)%nat) by (simpl; lia).
  assert (Hs : (length (speedHistory idle) <= 5)%nat) by (simpl; lia).
  split; [exact Hn|]. split; [exact Hs|].
  exact (proj1 (movementHistory_holds_eleven Host.smallAngle idle elevenFixes
                  Hn Hs)).
Defined.

(** C7 as stated fails at exactly 2000 ms: the device reports no speed, the
    previous fix (same place, smoothed speed 30) is 2000 ms old, and the
    candidate is the previous smoothed speed 30, not the derived speed, which
    is 0 there. *)
Lemma candidate_speed_at_2000ms :
  let last := LastPosition.mk 40 (- (74)) 1700000000000 30 in
  let now := 1700000002000%Z in
  Coords.speed parked = None
  /\ (2000 <= now - LastPosition.time last)%Z
  /\ calculatedSpeed Host.smallAngle (Some last) parked now = 30
  /\ calculateSpeed Host.smallAngle (LastPosition.lat last)
       (LastPosition.lon last) (Coords.latitude parked)
       (Coords.longitude parked) (now - LastPosition.time last) = 0
  /\ ~ calculatedSpeed Host.smallAngle (Some last) parked now
       == calculateSpeed Host.smallAngle (LastPosition.lat last)
            (LastPosition.lon last) (Coords.latitude parked)
            (Coords.longitude parked) (now - LastPosition.time last).
Proof.
  cbv zeta. split; [reflexivity|]. split; [discriminate|].
  split; [reflexivity|]. split; [vm_compute; reflexivity|].
  vm_compute. discriminate.
Qed.

Lemma candidate_speed_selection_witness :
  let last := LastPosition.mk 40 (- (74)) 1700000000000 30 in
  let tr := mkTracker [30] [] (Some last) medium in
  (2000 < 1700000006000 - LastPosition.time last)%Z
  /\ calculatedSpeed Host.smallAngle (lastPosition tr) parked 1700000006000
     = calculateSpeed Host.smallAngle 40 (- (74)) 40 (- (74)) 6000
  /\ (1700000001000 - LastPosition.time last <= 2000)%Z
  /\ calculatedSpeed Host.smallAngle (lastPosition tr) parked 1700000001000
     = 30
  /\ calculatedSpeed Host.smallAngle (lastPosition tr)
       (Coords.mk 40 (- (74)) 5 None None (Some 10)) 1700000001000
     = Num.round (10 * (2237 # 1000)).
Proof.
  cbv zeta.
  set (last := LastPosition.mk 40 (- (74)) 1700000000000 30).
  set (tr := mkTracker [30] [] (Some last) medium).
  assert (Hlate : (2000 < 1700000006000 - LastPosition.time last)%Z)
    by reflexivity.
  assert (Hsoon : (1700000001000 - LastPosition.time last <= 2000)%Z)
    by discriminate.
  assert (Hpos : 0 <= 10) by discriminate.
  pose proof (candidate_speed_selection Host.smallAngle tr parked
                1700000006000 80 1700000006000 1700000006000)
    as (_ & _ & Hderive & _ & _).
  pose proof (candidate_speed_selection Host.smallAngle tr parked
                1700000001000 80 1700000001000 1700000001000)
    as (_ & _ & _ & Hreuse & _).
  pose proof (candidate_speed_selection Host.smallAngle tr
                (Coords.mk 40 (- (74)) 5 None None (Some 10))
                1700000001000 80 1700000001000 1700000001000)
    as (_ & Hreport & _).
  split; [exact Hlate|].
  split; [exact (proj1 (Hderive last I eq_refl Hlate))|].
  split; [exact Hsoon|].
  split; [exact (Hreuse last I eq_refl Hsoon)|].
  exact (Hreport 10 eq_refl Hpos).
Defined.

(** "A prior fix exists" is not what the callback tests either: it keeps
    the [lastPosition] of the render it was registered in.  Registered on a
    cleared tracker, it handles a second fix six seconds after the first,
    111 m further north, neither with a reported speed, and pushes the
    candidate 0 where the speed derived from the two fixes is 41 mph. *)
Lemma candidate_speed_in_first_session :
  let r := sessionFixes Host.smallAngle idle idle twoSilentFixes in
  calculateSpeed Host.smallAngle 40 (- (74)) (40 + (1 # 1000)) (- (74)) 6000
  = 41
  /\ speedHistory (fst r) = [0]
  /\ map LocationData.speed (snd r) = [0; 0]
  /\ option_map LastPosition.time
       (lastPosition
          (fst (sessionFixes Host.smallAngle idle idle
                  (firstn 1 twoSilentFixes))))
     = Some 1700000000000%Z.
Proof. vm_compute. repeat split. Qed.

(** * Further properties of the reward engine *)

(** ** [Math.floor] and [Math.round] *)

Lemma floor_below (x : number) : Num.floor x <= x.
Proof. apply Qfloor_le. Qed.

Lemma floor_above (x : number) : x < Num.floor x + 1.
Proof.
  unfold Num.floor. pose proof (Qlt_floor x) as H.
  rewrite inject_Z_plus in H. exact H.
Qed.

Lemma floor_integer_le (z : Z) (x : number) :
  inject_Z z <= x -> inject_Z z <= Num.floor x.
Proof.
  intro H. unfold Num.floor. rewrite <- Zle_Qle.
  rewrite <- (Qfloor_Z z). now apply Qfloor_resp_le.
Qed.

Lemma floor_integer_lt (z : Z) (x : number) :
  x < inject_Z z -> Num.floor x <= inject_Z z - 1.
Proof.
  intro H. unfold Num.floor.
  assert (Hz : (Qfloor x < z)%Z).
  { rewrite Zlt_Qlt. pose proof (Qfloor_le x). lra. }
  assert (Hz' : (Qfloor x <= z + -1)%Z) by lia.
  rewrite Zle_Qle, inject_Z_plus in Hz'.
  change (inject_Z (-1)) with (- (1)) in Hz'. lra.
Qed.

(** Below one full hour nothing is floored to more than zero. *)
Lemma floor_sub_hour (d : number) :
  0 <= d -> d < 60 -> Num.floor (d / 60) = 0.
Proof.
  intros H0 H60.
  assert (Hlo : 0 <= d / 60) by (apply Qle_shift_div_l; lra).
  assert (Hhi : d / 60 < 1) by (apply Qlt_shift_div_r; lra).
  pose proof (floor_integer_le 0 _ Hlo) as L.
  pose proof (floor_integer_lt 1 _ Hhi) as U.
  unfold Num.floor in *.
  change (inject_Z 1) with 1 in U. change (inject_Z 0) with 0 in L.
  assert (E : Qfloor (d / 60) = 0%Z).
  { assert (0 <= Qfloor (d / 60))%Z by (rewrite Zle_Qle; exact L).
    assert (Qfloor (d / 60) <= 0)%Z
      by (rewrite Zle_Qle; change (inject_Z 0) with 0; lra).
    lia. }
  rewrite E. reflexivity.
Qed.

Lemma floor_nonneg (x : number) : 0 <= x -> 0 <= Num.floor x.
Proof. intro H. apply (floor_integer_le 0 x H). Qed.

Lemma round_lower (z : Z) (x : number) :
  inject_Z z <= x -> inject_Z z <= Num.round x.
Proof.
  intro H. unfold Num.round. apply (floor_integer_le z). lra.
Qed.

Lemma round_upper (z : Z) (x : number) :
  x <= inject_Z z -> Num.round x <= inject_Z z.
Proof.
  intro H. unfold Num.round.
  assert (Hlt : x + (1 # 2) < inject_Z (z + 1)).
  { rewrite inject_Z_plus. change (inject_Z 1) with 1. lra. }
  pose proof (floor_integer_lt (z + 1) _ Hlt) as Hf.
  rewrite inject_Z_plus in Hf. change (inject_Z 1) with 1 in Hf.
  unfold Num.floor in Hf. lra.
Qed.

Lemma round_integer (z : Z) : Num.round (inject_Z z) == inject_Z z.
Proof.
  apply Qle_antisym.
  - apply round_upper. lra.
  - apply round_lower. lra.
Qed.

(** ** The running average *)

Lemma newAverageSpeed_quotient (p : UserProfile) (data : SpeedData) :
  0 < totalTime p data ->
  newAverageSpeed p data
  = (averageSpeed p * totalDrivingTime p + speed data * duration data)
    / totalTime p data.
Proof.
  intro H. unfold newAverageSpeed.
  apply gtb_lt in H. rewrite H. reflexivity.
Qed.

Lemma newAverageSpeed_at_zero (p : UserProfile) (data : SpeedData) :
  totalTime p data <= 0 -> newAverageSpeed p data = speed data.
Proof.
  intro H. unfold newAverageSpeed.
  apply gtb_le in H. rewrite H. reflexivity.
Qed.

Lemma newAverageSpeed_upper (p : UserProfile) (data : SpeedData) (hi : number) :
  0 <= totalDrivingTime p -> 0 <= duration data ->
  averageSpeed p <= hi -> speed data <= hi ->
  newAverageSpeed p data <= hi.
Proof.
  intros HT Hd Ha Hs.
  destruct (Qlt_le_dec 0 (totalTime p data)) as [Hpos | Hzero].
  - rewrite newAverageSpeed_quotient by exact Hpos.
    apply Qle_shift_div_r; [exact Hpos|].
    unfold totalTime in *. nra.
  - rewrite newAverageSpeed_at_zero by exact Hzero. exact Hs.
Qed.

Lemma newAverageSpeed_lower (p : UserProfile) (data : SpeedData) (lo : number) :
  0 <= totalDrivingTime p -> 0 <= duration data ->
  lo <= averageSpeed p -> lo <= speed data ->
  lo <= newAverageSpeed p data.
Proof.
  intros HT Hd Ha Hs.
  destruct (Qlt_le_dec 0 (totalTime p data)) as [Hpos | Hzero].
  - rewrite newAverageSpeed_quotient by exact Hpos.
    apply Qle_shift_div_l; [exact Hpos|].
    unfold totalTime in *. nra.
  - rewrite newAverageSpeed_at_zero by exact Hzero. exact Hs.
Qed.

(** X1.  With non-negative times, the new average speed is the mean of the
    old average and the observed speed weighted by their minutes, so it lies
    between any bounds that hold for both; when no time has been recorded
    at all it is the observed speed. *)
Theorem newAverageSpeed_weighted_mean (p : UserProfile) (data : SpeedData)
  (lo hi : number) :
  0 <= totalDrivingTime p -> 0 <= duration data ->
  lo <= averageSpeed p -> averageSpeed p <= hi ->
  lo <= speed data -> speed data <= hi ->
  (0 < totalTime p data ->
   newAverageSpeed p data * (totalDrivingTime p + duration data)
   == averageSpeed p * totalDrivingTime p + speed data * duration data)
  /\ (totalTime p data <= 0 -> newAverageSpeed p data = speed data)
  /\ lo <= newAverageSpeed p data
  /\ newAverageSpeed p data <= hi.
Proof.
  intros HT Hd Hla Hha Hls Hhs. split; [|split; [|split]].
  - intro Hpos. rewrite newAverageSpeed_quotient by exact Hpos.
    unfold totalTime in *. field. lra.
  - apply newAverageSpeed_at_zero.
  - now apply newAverageSpeed_lower.
  - now apply newAverageSpeed_upper.
Qed.

Section RewardExtras.

Variable getMonth : Date -> Z.

(** ** Rewards per call *)

Lemma band_reward_sub_hour (v : number) (data : SpeedData) :
  0 <= duration data -> duration data < 60 ->
  rewardChange (exerciseBand data (speedBand v data)) == 0.
Proof.
  intros H0 H60. unfold exerciseBand, speedBand.
  rewrite (floor_sub_hour _ H0 H60).
  destruct (_ && _); [reflexivity|].
  destruct (Num.leb _ _); [reflexivity|].
  destruct (Num.gtb _ 75); [reflexivity|].
  destruct (Num.gtb _ 65); reflexivity.
Qed.

Lemma max0_of_zero (x : number) : x == 0 -> Num.max 0 x == 0.
Proof.
  intro H. destruct (max_cases 0 x) as [[_ ->] | [_ ->]]; [exact H | reflexivity].
Qed.

(** X2.  An observation shorter than one hour, on a profile that stays
    below thirty accumulated hours, changes no reward: the reward change is
    0, the weekly counter and the running monthly counter keep their
    values, and so does a non-negative total. *)
Theorem sub_hour_observation_pays_nothing (now : Date) (p : UserProfile)
  (data : SpeedData) :
  0 <= duration data -> duration data < 60 ->
  totalDrivingTime p + duration data < 30 * 60 ->
  let p' := updatedProfile getMonth now p data in
  rewardChange (deltas getMonth now p data) == 0
  /\ weeklyRewards p' == weeklyRewards p
  /\ monthlyRewards p' == fst (monthlyReset getMonth now p)
  /\ (0 <= totalRewards p -> totalRewards p' == totalRewards p).
Proof.
  intros H0 H60 Ht. cbv zeta.
  assert (E : rewardChange (deltas getMonth now p data) == 0).
  { unfold deltas. rewrite monthlyBonus_off by exact Ht.
    now apply band_reward_sub_hour. }
  pose proof (max0_of_zero _ E) as Em.
  split; [exact E|]. simpl.
  split; [rewrite Em; ring|]. split; [rewrite Em; ring|].
  intro Hp.
  destruct (max_cases 0 (totalRewards p
                         + rewardChange (deltas getMonth now p data)))
    as [[_ ->] | [Hneg ->]]; lra.
Qed.

Lemma band_reward_nonneg (v : number) (data : SpeedData) :
  speed data <= 65 -> 0 <= duration data ->
  0 <= rewardChange (exerciseBand data (speedBand v data)).
Proof.
  intros Hs Hd.
  assert (Hf : 0 <= Num.floor (duration data / 60)).
  { apply floor_nonneg. apply Qle_shift_div_l; lra. }
  unfold exerciseBand, speedBand.
  apply leb_le in Hs. rewrite Hs.
  destruct (_ && _); simpl; lra.
Qed.

(** X3.  The "monthly" bonus has no monthly gate.  Whatever the clock
    reading and whenever the profile was last rewarded, a call at 65 mph or
    less with a non-negative duration that brings the recorded time to
    thirty hours or more with a new average of at most 65 mph has a reward
    change of at least 150, and the profile it computes has [totalRewards]
    and [weeklyRewards] at least 150 above the ones it read. *)
Theorem monthly_bonus_has_no_gate (now : Date) (p : UserProfile)
  (data : SpeedData) :
  speed data <= 65 -> 0 <= duration data ->
  30 * 60 <= totalTime p data -> newAverageSpeed p data <= 65 ->
  let p' := updatedProfile getMonth now p data in
  150 <= rewardChange (deltas getMonth now p data)
  /\ totalRewards p + 150 <= totalRewards p'
  /\ weeklyRewards p + 150 <= weeklyRewards p'.
Proof.
  intros Hs Hd HT Havg. cbv zeta. simpl.
  assert (Hrc : 150 <= rewardChange (deltas getMonth now p data)).
  { unfold deltas, monthlyBonus.
    assert (E1 : Num.geb (totalTime p data) (30 * 60) = true)
      by (apply geb_le; exact HT).
    assert (E2 : Num.leb (newAverageSpeed p data) 65 = true)
      by (apply leb_le; exact Havg).
    rewrite E1, E2. simpl.
    pose proof (band_reward_nonneg (snd (monthlyReset getMonth now p)) data
                  Hs Hd).
    lra. }
  pose proof (max_upper 0 (totalRewards p
                           + rewardChange (deltas getMonth now p data))).
  pose proof (max_upper 0 (rewardChange (deltas getMonth now p data))).
  split; [exact Hrc|]. split; lra.
Qed.

(** ** The safety score per call *)




(** ** The calls of one session *)

(** A closure called in the render it was created in is the plain call. *)
Lemma updateUserRewardsFrom_same (now : Date)
  (updateDoc : string -> UserDoc -> Result unit) (st : AuthState)
  (data : SpeedData) :
  updateUserRewardsFrom getMonth now updateDoc st st data
  = updateUserRewards getMonth now updateDoc st data.
Proof. reflexivity. Qed.

Lemma updateUserRewardsFrom_total (now : Date)
  (updateDoc : string -> UserDoc -> Result unit)
  (captured current : AuthState) (data : SpeedData) :
  exists current',
    updateUserRewardsFrom getMonth now updateDoc captured current data
    = Ok current'.
Proof.
  unfold updateUserRewardsFrom.
  destruct (currentUser captured); [|eexists; reflexivity].
  destruct (userProfile captured); [|eexists; reflexivity].
  cbv zeta. destruct (updateDoc _ _) as [[]|e]; eexists; reflexivity.
Qed.

Lemma updateUserRewardsFrom_stored (now : Date)
  (updateDoc : string -> UserDoc -> Result unit)
  (captured current : AuthState) (data : SpeedData) (user : User)
  (p : UserProfile) :
  currentUser captured = Some user ->
  userProfile captured = Some p ->
  updateDoc (uid user)
    (mkUserDoc (updatedProfile getMonth now p data) serverTimestamp)
  = Ok tt ->
  updateUserRewardsFrom getMonth now updateDoc captured current data
  = Ok (setUserProfile current (updatedProfile getMonth now p data)).
Proof.
  intros Eu Ep Hd. unfold updateUserRewardsFrom. rewrite Eu, Ep.
  cbv zeta. rewrite Hd. reflexivity.
Qed.

Lemma runSession_app (captured current : AuthState) (earlier later : list Call) :
  runSession getMonth captured current (earlier ++ later)
  = bind (runSession getMonth captured current earlier)
      (fun mid => runSession getMonth captured mid later).
Proof.
  revert current. induction earlier as [|c rest IH]; intro current.
  - reflexivity.
  - simpl.
    destruct (updateUserRewardsFrom_total (callNow c) (callUpdateDoc c)
                captured current (callData c)) as (mid & ->).
    simpl. apply IH.
Qed.

Lemma runSession_total (captured current : AuthState) (calls : list Call) :
  exists st', runSession getMonth captured current calls = Ok st'.
Proof.
  revert current. induction calls as [|c rest IH]; intro current.
  - eexists. reflexivity.
  - simpl.
    destruct (updateUserRewardsFrom_total (callNow c) (callUpdateDoc c)
                captured current (callData c)) as (mid & ->).
    simpl. apply IH.
Qed.

Lemma runSession_last (captured current : AuthState) (user : User)
  (p : UserProfile) (earlier : list Call) (c : Call) :
  currentUser captured = Some user -> userProfile captured = Some p ->
  (forall u d, callUpdateDoc c u d = Ok tt) ->
  exists st',
    runSession getMonth captured current (earlier ++ [c]) = Ok st'
    /\ userProfile st'
       = Some (updatedProfile getMonth (callNow c) p (callData c)).
Proof.
  intros Eu Ep Hstore. rewrite runSession_app.
  destruct (runSession_total captured current earlier) as (mid & ->).
  simpl.
  rewrite (updateUserRewardsFrom_stored (callNow c) (callUpdateDoc c)
             captured mid (callData c) user p Eu Ep (Hstore _ _)).
  eexists. split; reflexivity.
Qed.

(** X5.  The calls made through one registered callback do not accumulate.
    Each of them computes from the profile captured when the callback was
    registered, so after any earlier calls of the session, stored or not,
    the profile a stored call leaves is the one that call alone computes
    from the captured profile: its driving time and weekly rewards are the
    captured ones plus this call's own, and what the earlier calls added is
    overwritten. *)
Theorem session_keeps_last_stored_call (captured current : AuthState)
  (user : User) (p : UserProfile) (earlier : list Call) (c : Call) :
  currentUser captured = Some user -> userProfile captured = Some p ->
  (forall u d, callUpdateDoc c u d = Ok tt) ->
  exists st' p',
    runSession getMonth captured current (earlier ++ [c]) = Ok st'
    /\ userProfile st' = Some p'
    /\ p' = updatedProfile getMonth (callNow c) p (callData c)
    /\ totalDrivingTime p' = totalDrivingTime p + duration (callData c)
    /\ weeklyRewards p'
       = weeklyRewards p
         + Num.max 0
             (rewardChange (deltas getMonth (callNow c) p (callData c))).
Proof.
  intros Eu Ep Hstore.
  destruct (runSession_last captured current user p earlier c Eu Ep Hstore)
    as (st' & Hrun & Hp).
  exists st', (updatedProfile getMonth (callNow c) p (callData c)).
  repeat split; assumption.
Qed.

(** X6.  A month change is applied again by every stored call of the
    session.  The calls read the [lastSpeedCheck] captured at registration,
    not the one an earlier call stored: when its month number differs from
    that of a call's clock reading, the profile this call stores has
    [monthlyRewards] restarted from 0 and [speedViolations] restarted from
    0, whatever the earlier calls of the session stored in the new month. *)
Theorem session_resets_on_every_call (captured current : AuthState)
  (user : User) (p : UserProfile) (earlier : list Call) (c : Call) :
  currentUser captured = Some user -> userProfile captured = Some p ->
  (forall u d, callUpdateDoc c u d = Ok tt) ->
  getMonth (callNow c) <> getMonth (lastCheck p) ->
  exists st' p',
    runSession getMonth captured current (earlier ++ [c]) = Ok st'
    /\ userProfile st' = Some p'
    /\ monthlyRewards p'
       = 0 + Num.max 0
               (rewardChange (deltas getMonth (callNow c) p (callData c)))
    /\ speedViolations p'
       == 0 + (if Num.gtb (speed (callData c)) 75 then 1 else 0).
Proof.
  intros Eu Ep Hstore Hm.
  destruct (runSession_last captured current user p earlier c Eu Ep Hstore)
    as (st' & Hrun & Hp).
  exists st', (updatedProfile getMonth (callNow c) p (callData c)).
  split; [exact Hrun|]. split; [exact Hp|].
  pose proof (monthlyReset_rollover getMonth (callNow c) p Hm) as R.
  simpl. rewrite deltas_violations, R. simpl.
  split; [reflexivity|].
  destruct (Num.gtb (speed (callData c)) 75); lra.
Qed.

End RewardExtras.

(** * Further properties of the tracker *)

Lemma Forall_slice_last {A : Type} (P : A -> Prop) (n : nat) (l : list A) :
  Forall P l -> Forall P (slice_last n l).
Proof.
  intro H. unfold slice_last. rewrite Forall_forall in *.
  intros x Hx. apply H.
  rewrite <- (firstn_skipn (length l - n) l). apply in_or_app. now right.
Qed.

Lemma weight_positive (index : nat) : 0 < inject_Z (Z.of_nat index + 1).
Proof.
  change 0 with (inject_Z 0). rewrite <- Zlt_Qlt. lia.
Qed.

(** The accumulated weighted sum stays between [lo] and [hi] times the
    accumulated weight. *)
Lemma weigh_lower (lo : number) (history : list number) :
  Forall (fun s => lo <= s) history ->
  forall (index : nat) (acc : number * number),
    lo * snd acc <= fst acc ->
    lo * snd (weigh history index acc) <= fst (weigh history index acc).
Proof.
  induction 1 as [|s rest Hs _ IH]; intros index acc Hacc; [exact Hacc|].
  simpl. apply IH. simpl.
  pose proof (weight_positive index). nra.
Qed.

Lemma weigh_upper (hi : number) (history : list number) :
  Forall (fun s => s <= hi) history ->
  forall (index : nat) (acc : number * number),
    fst acc <= hi * snd acc ->
    fst (weigh history index acc) <= hi * snd (weigh history index acc).
Proof.
  induction 1 as [|s rest Hs _ IH]; intros index acc Hacc; [exact Hacc|].
  simpl. apply IH. simpl.
  pose proof (weight_positive index). nra.
Qed.

Lemma weigh_weight (history : list number) :
  forall (index : nat) (acc : number * number),
    snd acc <= snd (weigh history index acc)
    /\ (history <> [] -> snd acc < snd (weigh history index acc)).
Proof.
  induction history as [|s rest IH]; intros index acc.
  - simpl. split; [lra | congruence].
  - simpl.
    destruct (IH (S index)
                (fst acc + s * inject_Z (Z.of_nat index + 1),
                 snd acc + inject_Z (Z.of_nat index + 1))) as [Hle _].
    simpl in Hle. pose proof (weight_positive index).
    split; [lra | intros _; lra].
Qed.

Lemma window_nonempty (history : list number) (newSpeed : number) :
  slice_last 5 (history ++ [newSpeed]) <> [].
Proof.
  intro E. apply (f_equal (@length number)) in E.
  rewrite slice_last_length, length_app in E.
  change (length [newSpeed]) with 1%nat in E.
  change (length (@nil number)) with 0%nat in E. lia.
Qed.

Lemma smoothSpeed_value (history : list number) (newSpeed : number) :
  snd (smoothSpeed history newSpeed)
  = Num.round
      (fst (weigh (slice_last 5 (history ++ [newSpeed])) 0 (0, 0))
       / snd (weigh (slice_last 5 (history ++ [newSpeed])) 0 (0, 0))).
Proof.
  unfold smoothSpeed. cbv zeta.
  destruct (weigh _ _ _) as [weightedSum totalWeight]. reflexivity.
Qed.

Lemma smoothSpeed_lower (history : list number) (newSpeed : number) (lo : Z) :
  Forall (fun s => inject_Z lo <= s) (fst (smoothSpeed history newSpeed)) ->
  inject_Z lo <= snd (smoothSpeed history newSpeed).
Proof.
  rewrite smoothSpeed_history, smoothSpeed_value. intro H.
  set (w := slice_last 5 (history ++ [newSpeed])) in *.
  pose proof (weigh_lower _ w H 0%nat (0, 0)) as Hlo.
  destruct (weigh_weight w 0 (0, 0)) as [_ Hpos].
  specialize (Hpos (window_nonempty history newSpeed)).
  simpl in Hlo, Hpos.
  apply round_lower. apply Qle_shift_div_l; [exact Hpos|].
  apply Hlo. lra.
Qed.

Lemma smoothSpeed_upper (history : list number) (newSpeed : number) (hi : Z) :
  Forall (fun s => s <= inject_Z hi) (fst (smoothSpeed history newSpeed)) ->
  snd (smoothSpeed history newSpeed) <= inject_Z hi.
Proof.
  rewrite smoothSpeed_history, smoothSpeed_value. intro H.
  set (w := slice_last 5 (history ++ [newSpeed])) in *.
  pose proof (weigh_upper _ w H 0%nat (0, 0)) as Hhi.
  destruct (weigh_weight w 0 (0, 0)) as [_ Hpos].
  specialize (Hpos (window_nonempty history newSpeed)).
  simpl in Hhi, Hpos.
  apply round_upper. apply Qle_shift_div_r; [exact Hpos|].
  apply Hhi. lra.
Qed.

(** X7.  The smoothed speed is a whole number that stays within the window
    it averages: if every speed kept in the history after the push lies
    between the whole numbers [lo] and [hi], so does the value returned. *)
Theorem smoothSpeed_within_window (history : list number) (newSpeed : number)
  (lo hi : Z) :
  Forall (fun s => inject_Z lo <= s /\ s <= inject_Z hi)
         (fst (smoothSpeed history newSpeed)) ->
  inject_Z lo <= snd (smoothSpeed history newSpeed)
  /\ snd (smoothSpeed history newSpeed) <= inject_Z hi
  /\ isInteger (snd (smoothSpeed history newSpeed)).
Proof.
  intro H. split; [|split].
  - apply smoothSpeed_lower. eapply Forall_impl; [|exact H]. simpl. tauto.
  - apply smoothSpeed_upper. eapply Forall_impl; [|exact H]. simpl. tauto.
  - rewrite smoothSpeed_value. eexists. reflexivity.
Qed.

(** With nothing remembered the smoothed speed is the candidate, rounded. *)
Lemma smoothSpeed_first (c : number) :
  smoothSpeed [] c = ([c], Num.round c).
Proof.
  assert (E : smoothSpeed [] c
              = ([c], Num.round ((0 + c * inject_Z (0 + 1))
                                 / (0 + inject_Z (0 + 1)))))
    by reflexivity.
  rewrite E. unfold Num.round. do 2 f_equal.
  apply Qfloor_comp. change (inject_Z (0 + 1)) with 1. field.
Qed.

Section TrackerExtras.

Variable M : MathLib.

(** The range of [calculateSpeed] where its arithmetic is defined: the
    elapsed time is not zero, so zero is never divided by zero, and the
    haversine term lies within [[0, 1]], so no square root of a negative
    number is taken. *)
Lemma calculateSpeed_bounds (lat1 lon1 lat2 lon2 : number) (timeDiff : Z) :
  timeDiff <> 0%Z ->
  0 <= haversineTerm M lat1 lon1 lat2 lon2 ->
  haversineTerm M lat1 lon1 lat2 lon2 <= 1 ->
  0 <= calculateSpeed M lat1 lon1 lat2 lon2 timeDiff
  /\ calculateSpeed M lat1 lon1 lat2 lon2 timeDiff <= 150
  /\ isInteger (calculateSpeed M lat1 lon1 lat2 lon2 timeDiff).
Proof.
  intros _ _ _.
  rewrite calculateSpeed_rejection. cbv zeta.
  set (speedMph := _ * (2237 # 1000)).
  destruct (Num.gtb speedMph 150) eqn:E150; simpl.
  - repeat split; try discriminate. exists 0%Z. reflexivity.
  - apply gtb_le in E150.
    assert (Hr : Num.round speedMph <= 150) by (apply (round_upper 150); exact E150).
    destruct (Num.gtb speedMph 80 && (timeDiff <? 5000)%Z).
    + repeat split; try discriminate. exists 0%Z. reflexivity.
    + destruct (max_cases 0 (Num.round speedMph)) as [[H0 ->] | [Hneg ->]].
      * repeat split; try assumption. eexists. reflexivity.
      * repeat split; try discriminate. exists 0%Z. reflexivity.
Qed.

(** X8.  For a non-zero elapsed time and a haversine term within [[0, 1]]
    (where the source divides no zero by zero and takes no square root of
    a negative number), whatever the host's [Math] returns,
    [calculateSpeed] returns a whole number of miles per hour between 0 and
    150. *)
Theorem calculateSpeed_range (lat1 lon1 lat2 lon2 : number) (timeDiff : Z) :
  timeDiff <> 0%Z ->
  0 <= haversineTerm M lat1 lon1 lat2 lon2 ->
  haversineTerm M lat1 lon1 lat2 lon2 <= 1 ->
  0 <= calculateSpeed M lat1 lon1 lat2 lon2 timeDiff
  /\ calculateSpeed M lat1 lon1 lat2 lon2 timeDiff <= 150
  /\ isInteger (calculateSpeed M lat1 lon1 lat2 lon2 timeDiff).
Proof.
  intros Ht Hlo Hhi.
  exact (calculateSpeed_bounds lat1 lon1 lat2 lon2 timeDiff Ht Hlo Hhi).
Qed.

Lemma calculatedSpeed_nonneg (last : option LastPosition.t)
  (coords : Coords.t) (now : Z) :
  (forall lp, last = Some lp ->
     0 <= LastPosition.speed lp
     /\ 0 <= haversineTerm M (LastPosition.lat lp) (LastPosition.lon lp)
              (Coords.latitude coords) (Coords.longitude coords)
     /\ haversineTerm M (LastPosition.lat lp) (LastPosition.lon lp)
          (Coords.latitude coords) (Coords.longitude coords) <= 1) ->
  0 <= calculatedSpeed M last coords now.
Proof.
  intro Hlast. unfold calculatedSpeed. cbv zeta.
  assert (Hfrom :
    0 <= match last with
         | Some lp =>
             if (now - LastPosition.time lp >? 2000)%Z
             then calculateSpeed M (LastPosition.lat lp) (LastPosition.lon lp)
                    (Coords.latitude coords) (Coords.longitude coords)
                    (now - LastPosition.time lp)
             else LastPosition.speed lp
         | None => 0
         end).
  { destruct last as [lp|]; [|lra].
    destruct (Hlast lp eq_refl) as (Hs & Hlo & Hhi).
    destruct (_ >? _)%Z eqn:E; [|exact Hs].
    apply calculateSpeed_bounds; [|exact Hlo|exact Hhi].
    apply Z.gtb_lt in E. lia. }
  destruct (Coords.speed coords) as [s|]; [|exact Hfrom].
  destruct (Num.geb s 0) eqn:E; [|exact Hfrom].
  apply geb_le in E. apply (round_lower 0).
  change (inject_Z 0) with 0. nra.
Qed.

Lemma onPosition_sample_speed (tr : Tracker) (coords : Coords.t) (now : Z)
  (battery : number) (detectNow stamp : Z) :
  let r := onPosition M tr coords now battery detectNow stamp in
  let smoothed :=
    snd (smoothSpeed (speedHistory tr)
           (calculatedSpeed M (lastPosition tr) coords now)) in
  LocationData.speed (snd r) = smoothed
  /\ lastPosition (fst r)
     = Some (LastPosition.mk (Coords.latitude coords)
               (Coords.longitude coords) now smoothed).
Proof.
  cbv zeta. unfold onPosition. cbv zeta.
  destruct (smoothSpeed _ _) as [history smoothed]. simpl. split; reflexivity.
Qed.

(** X9.  Negative speeds never enter the pipeline.  When the speeds the
    callback reads ([speedHistory] and the speed of [lastPosition]) are
    non-negative and the haversine term between that last position and the
    fix lies within [[0, 1]], the speeds it writes are non-negative again
    and the sample's speed is a non-negative whole number, whatever speed
    the device reports. *)
Theorem sample_speed_nonneg (tr : Tracker) (coords : Coords.t) (now : Z)
  (battery : number) (detectNow stamp : Z) :
  speedsNonneg tr ->
  (forall lp, lastPosition tr = Some lp ->
     0 <= haversineTerm M (LastPosition.lat lp) (LastPosition.lon lp)
            (Coords.latitude coords) (Coords.longitude coords)
     /\ haversineTerm M (LastPosition.lat lp) (LastPosition.lon lp)
          (Coords.latitude coords) (Coords.longitude coords) <= 1) ->
  let r := onPosition M tr coords now battery detectNow stamp in
  speedsNonneg (fst r)
  /\ 0 <= LocationData.speed (snd r)
  /\ isInteger (LocationData.speed (snd r)).
Proof.
  intros [Hh Hl] Hterm. cbv zeta.
  pose proof (onPosition_histories M tr coords now battery detectNow stamp)
    as [_ Esh].
  pose proof (onPosition_sample_speed tr coords now battery detectNow stamp)
    as [Esp Elp].
  cbv zeta in Esh, Esp, Elp.
  assert (Hc : 0 <= calculatedSpeed M (lastPosition tr) coords now).
  { apply calculatedSpeed_nonneg. intros lp E.
    rewrite E in Hl. split; [exact Hl | exact (Hterm lp E)]. }
  assert (Hw : Forall (fun s => 0 <= s)
                 (fst (smoothSpeed (speedHistory tr)
                         (calculatedSpeed M (lastPosition tr) coords now)))).
  { rewrite smoothSpeed_history. apply Forall_slice_last.
    apply Forall_app. split; [exact Hh|]. constructor; [exact Hc | constructor]. }
  pose proof (smoothSpeed_lower _ _ 0 Hw) as Hs.
  change (inject_Z 0) with 0 in Hs.
  split; [split|split].
  - rewrite Esh. exact Hw.
  - rewrite Elp. simpl. exact Hs.
  - rewrite Esp. exact Hs.
  - rewrite Esp, smoothSpeed_value. eexists. reflexivity.
Qed.

End TrackerExtras.

(** ** The fixes of one session *)

Section SessionFixes.

Variable M : MathLib.

(** The callback handling a fix in the render it was registered in is the
    plain [onPosition]. *)
Lemma onPositionFrom_same (tr : Tracker) (coords : Coords.t) (now : Z)
  (battery : number) (detectNow stamp : Z) :
  onPositionFrom M tr tr coords now battery detectNow stamp
  = onPosition M tr coords now battery detectNow stamp.
Proof.
  unfold onPositionFrom, onPosition. cbv zeta.
  destruct (smoothSpeed _ _) as [history smoothed]. reflexivity.
Qed.

Lemma sessionFixes_samples (captured current : Tracker) (fixes : list Fix) :
  snd (sessionFixes M captured current fixes)
  = map (fun f => snd (onPosition M captured (fixCoords f) (fixNow f)
                         (fixBattery f) (fixDetectNow f) (fixStamp f)))
        fixes.
Proof.
  revert current. induction fixes as [|f rest IH]; intro current;
    [reflexivity|].
  simpl. f_equal. apply IH.
Qed.

Lemma sessionFixes_app (captured current : Tracker) (earlier later : list Fix) :
  fst (sessionFixes M captured current (earlier ++ later))
  = fst (sessionFixes M captured
           (fst (sessionFixes M captured current earlier)) later).
Proof.
  revert current. induction earlier as [|f rest IH]; intro current;
    [reflexivity|].
  simpl. apply IH.
Qed.


(** X10.  Within one registration the smoothing has no memory.  Every
    sample is smoothed against the [speedHistory] and computed from the
    [lastPosition] captured when the callback was registered, whatever
    fixes came before it; the history left behind is the captured one with
    the last candidate pushed.  Registered on a cleared history, each
    sample carries its own candidate, rounded, and [speedHistory] holds
    that single candidate. *)
Theorem session_smoothing_has_no_memory (captured current : Tracker)
  (fixes : list Fix) :
  let candidate f :=
    calculatedSpeed M (lastPosition captured) (fixCoords f) (fixNow f) in
  let samples := snd (sessionFixes M captured current fixes) in
  map LocationData.speed samples
  = map (fun f => snd (smoothSpeed (speedHistory captured) (candidate f)))
        fixes
  /\ (forall earlier f,
        fixes = earlier ++ [f] ->
        speedHistory (fst (sessionFixes M captured current fixes))
        = slice_last 5 (speedHistory captured ++ [candidate f]))
  /\ (speedHistory captured = [] ->
      map LocationData.speed samples
      = map (fun f => Num.round (candidate f)) fixes
      /\ (forall earlier f,
            fixes = earlier ++ [f] ->
            speedHistory (fst (sessionFixes M captured current fixes))
            = [candidate f])).
Proof.
  cbv zeta.
  assert (Hsamples :
    map LocationData.speed (snd (sessionFixes M captured current fixes))
    = map (fun f => snd (smoothSpeed (speedHistory captured)
                           (calculatedSpeed M (lastPosition captured)
                              (fixCoords f) (fixNow f)))) fixes).
  { rewrite sessionFixes_samples, map_map. apply map_ext. intro f.
    exact (proj1 (onPosition_sample_speed M captured (fixCoords f) (fixNow f)
                    (fixBattery f) (fixDetectNow f) (fixStamp f))). }
  assert (Hlast : forall earlier f,
    fixes = earlier ++ [f] ->
    speedHistory (fst (sessionFixes M captured current fixes))
    = slice_last 5 (speedHistory captured
                    ++ [calculatedSpeed M (lastPosition captured)
                          (fixCoords f) (fixNow f)])).
  { intros earlier f ->. rewrite sessionFixes_app. simpl.
    rewrite (proj2 (onPosition_histories M captured (fixCoords f) (fixNow f)
                      (fixBattery f) (fixDetectNow f) (fixStamp f))).
    apply smoothSpeed_history. }
  split; [exact Hsamples|]. split; [exact Hlast|].
  intro Hempty. split.
  - rewrite Hsamples, Hempty. apply map_ext. intro f.
    now rewrite smoothSpeed_first.
  - intros earlier f E. rewrite (Hlast earlier f E), Hempty. reflexivity.
Qed.


End SessionFixes.

(** ** The accuracy tiers *)

(** X11.  Both classifications of a fix's accuracy are monotone (a larger
    accuracy radius never gets a better tier), and the one applied to the
    first position after switching sharing on is never stricter than the
    one applied to every later fix. *)
Theorem accuracy_tiers_monotone (a b : number) :
  a <= b ->
  (tierRank (accuracyLevel a) <= tierRank (accuracyLevel b))%nat
  /\ (tierRank (initialAccuracy a) <= tierRank (initialAccuracy b))%nat
  /\ (tierRank (initialAccuracy a) <= tierRank (accuracyLevel a))%nat.
Proof.
  intro Hab. unfold accuracyLevel, initialAccuracy.
  destruct (Num.leb a 3) eqn:A3, (Num.leb a 10) eqn:A10,
           (Num.leb a 5) eqn:A5, (Num.leb a 20) eqn:A20,
           (Num.leb b 3) eqn:B3, (Num.leb b 10) eqn:B10,
           (Num.leb b 5) eqn:B5, (Num.leb b 20) eqn:B20;
    simpl; repeat split; try lia;
    repeat match goal with
           | H : Num.leb _ _ = true |- _ => apply leb_le in H
           | H : Num.leb _ _ = false |- _ => apply leb_gt in H
           end; lra.
Qed.

(** * The battery estimate *)

Lemma floor_of_fraction (random : number) (n : Z) :
  (0 < n)%Z -> 0 <= random -> random < 1 ->
  0 <= Num.floor (random * inject_Z n)
  /\ Num.floor (random * inject_Z n) <= inject_Z n - 1.
Proof.
  intros Hn H0 H1.
  assert (Hq : 0 < inject_Z n)
    by (change 0 with (inject_Z 0); now rewrite <- Zlt_Qlt).
  split.
  - apply floor_nonneg. nra.
  - apply floor_integer_lt. nra.
Qed.

(** X12.  With [Math.random()] in [[0, 1)], [getBatteryLevel] never throws
    and returns a percentage between 0 and 100: the rounded level when the
    Battery API answers with a level between 0 and 1, a value between 15
    and 100 from the time-of-day model when there is no such API (the
    jitter being between -5 and +4), and a value between 50 and 89 when
    the API rejects. *)
Theorem getBatteryLevel_range (api : BatteryApi) (hour minute random : number) :
  0 <= random -> random < 1 ->
  match api with
  | batteryResolves level => 0 <= level /\ level <= 1
  | _ => True
  end ->
  exists b,
    getBatteryLevel api hour minute random = Ok b
    /\ 0 <= b /\ b <= 100
    /\ match api with
       | batteryResolves level => b = Num.round (level * 100)
       | batteryMissing =>
           15 <= b
           /\ exists variation,
               - (5) <= variation /\ variation <= 4
               /\ b = Num.max 15
                        (Num.min 100
                           (100 - Num.floor ((hour * 60 + minute) / (144 # 10))
                            + variation))
       | batteryRejects _ => 50 <= b /\ b <= 89
       end.
Proof.
  intros H0 H1 Hlevel. unfold getBatteryLevel.
  destruct api as [|level|error]; simpl.
  - eexists. split; [reflexivity|].
    set (x := 100 - _ + _).
    pose proof (max_lower 15 (Num.min 100 x)) as Hlo.
    assert (Hhi : Num.max 15 (Num.min 100 x) <= 100).
    { destruct (max_cases 15 (Num.min 100 x)) as [[_ ->] | [_ ->]]; [|lra].
      destruct (min_cases 100 x) as [[_ ->] | [? ->]]; lra. }
    split; [lra|]. split; [exact Hhi|]. split; [exact Hlo|].
    exists (Num.floor (random * 10) - 5).
    destruct (floor_of_fraction random 10 eq_refl H0 H1) as [Ha Hb].
    change (inject_Z 10) with 10 in Ha, Hb.
    repeat split; lra.
  - destruct Hlevel as [Hl0 Hl1].
    eexists. split; [reflexivity|].
    split; [apply (round_lower 0); change (inject_Z 0) with 0; lra|].
    split; [apply (round_upper 100); change (inject_Z 100) with 100; lra|].
    reflexivity.
  - eexists. split; [reflexivity|].
    destruct (floor_of_fraction random 40 eq_refl H0 H1) as [Ha Hb].
    change (inject_Z 40) with 40 in Ha, Hb.
    repeat split; lra.
Qed.

(** * Switching sharing off and on *)

Lemma toggle_off (geo : Geolocation) (ls : LocationState) :
  isLocationSharing ls = true ->
  toggleLocationSharing geo ls
  = (mkLocationState (sharingOff (tracker ls)) false (currentLocation ls)
                     (lastSpeedUpdate ls),
     []).
Proof.
  intro H. unfold toggleLocationSharing. rewrite H. reflexivity.
Qed.

Section Restart.

Variable M : MathLib.

(** X13.  Switching sharing off and on again empties both histories but
    keeps [lastPosition] and [lastSpeedUpdate].  The first fix afterwards
    therefore restarts the smoothing (its sample carries the candidate
    speed itself, rounded) while its candidate may still be derived from
    the position remembered from before the pause. *)
Theorem first_sample_after_restart (ls : LocationState) (geo : Geolocation)
  (accuracy : number) (coords : Coords.t) (now : Z) (battery : number)
  (detectNow stamp : Z) :
  isLocationSharing ls = true ->
  let off := fst (toggleLocationSharing geo ls) in
  let on := fst (toggleLocationSharing (geoPosition accuracy) off) in
  let r := onPosition M (tracker on) coords now battery detectNow stamp in
  let candidate := calculatedSpeed M (lastPosition (tracker ls)) coords now in
  isLocationSharing off = false
  /\ isLocationSharing on = true
  /\ lastSpeedUpdate on = lastSpeedUpdate ls
  /\ lastPosition (tracker on) = lastPosition (tracker ls)
  /\ speedHistory (fst r) = [candidate]
  /\ movementHistory (fst r)
     = [Movement.mk now (Coords.latitude coords) (Coords.longitude coords)]
  /\ LocationData.speed (snd r) = Num.round candidate.
Proof.
  intro Hon. cbv zeta. rewrite (toggle_off geo ls Hon). cbn [fst].
  change (toggleLocationSharing (geoPosition accuracy)
            (mkLocationState (sharingOff (tracker ls)) false
               (currentLocation ls) (lastSpeedUpdate ls)))
    with (mkLocationState
            (mkTracker [] [] (lastPosition (tracker ls))
                       (initialAccuracy accuracy))
            true (currentLocation ls) (lastSpeedUpdate ls),
          @nil string).
  cbn [fst tracker isLocationSharing lastSpeedUpdate lastPosition].
  set (tr := mkTracker [] [] (lastPosition (tracker ls))
                       (initialAccuracy accuracy)).
  pose proof (onPosition_histories M tr coords now battery detectNow stamp)
    as [Hm Hs].
  pose proof (onPosition_sample_speed M tr coords now battery detectNow stamp)
    as [Hsp _].
  cbv zeta in Hm, Hs, Hsp.
  change (speedHistory tr) with (@nil number) in Hs, Hsp.
  change (movementHistory tr) with (@nil Movement.t) in Hm.
  change (lastPosition tr) with (lastPosition (tracker ls)) in Hs, Hsp.
  rewrite smoothSpeed_first in Hs, Hsp.
  repeat split; assumption.
Qed.

End Restart.

(** * Publishing a sample: [updateLocation] *)

Lemma half_minute (d : Z) :
  Num.geb (inject_Z d / (1000 * 60)) (5 # 10) = true <-> (30000 <= d)%Z.
Proof.
  rewrite geb_le, Zle_Qle. change (inject_Z 30000) with 30000. split; intro H.
  - assert (E : inject_Z d == inject_Z d / (1000 * 60) * (1000 * 60))
      by (field; discriminate).
    lra.
  - apply Qle_shift_div_l; [reflexivity | lra].
Qed.

Section PublishingFacts.

Variable getMonth : Date -> Z.

(** The three ways [updateLocation] can end before anything is published. *)
Lemma updateLocation_cases
  (setDoc : string -> LocationDoc -> Result unit)
  (updateDoc : string -> UserDoc -> Result unit)
  (stamp check rewardNow mark : Date)
  (auth : AuthState) (ls : LocationState) (location : LocationData.t) :
  (exists auth' ls',
      updateLocation getMonth setDoc updateDoc stamp check rewardNow mark
        auth ls location = Ok (auth', ls'))
  /\ (currentUser auth = None \/ isLocationSharing ls = false ->
      updateLocation getMonth setDoc updateDoc stamp check rewardNow mark
        auth ls location = Ok (auth, ls))
  /\ (forall user e,
        currentUser auth = Some user -> isLocationSharing ls = true ->
        setDoc (uid user)
          (mkLocationDoc location (uid user)
             (orString (option_map displayName (userProfile auth)) "User")
             stamp) = Throw e ->
        updateLocation getMonth setDoc updateDoc stamp check rewardNow mark
          auth ls location
        = Ok (console_error auth ("Error updating location: " ++ e)%string,
              ls)).
Proof.
  split; [|split].
  - unfold updateLocation.
    destruct (currentUser auth) as [user|]; [|eauto].
    destruct (isLocationSharing ls); [|eauto].
    destruct (setDoc _ _) as [[]|e]; simpl; [|eauto].
    destruct (lastSpeedUpdate ls) as [last|];
      destruct (Num.geb (LocationData.speed location) 0); simpl; eauto.
    destruct (Num.geb _ (5 # 10)); simpl; eauto.
    destruct (updateUserRewards_cases getMonth rewardNow updateDoc auth
                (mkSpeedData (LocationData.speed location)
                   (inject_Z (getTime check - getTime last) / (1000 * 60))))
      as (auth' & -> & _).
    simpl. eauto.
  - intros [Hu | Hs]; unfold updateLocation.
    + rewrite Hu. reflexivity.
    + rewrite Hs. destruct (currentUser auth); reflexivity.
  - intros user e Hu Hs Hd. unfold updateLocation.
    rewrite Hu, Hs, Hd. reflexivity.
Qed.

(** X14.  [updateLocation] never throws.  Without a signed-in user or with
    sharing off it does nothing at all; when the location write is
    rejected, nothing is published or rewarded and [lastSpeedUpdate] stays:
    only a console line is added. *)
Theorem updateLocation_guards
  (setDoc : string -> LocationDoc -> Result unit)
  (updateDoc : string -> UserDoc -> Result unit)
  (stamp check rewardNow mark : Date)
  (auth : AuthState) (ls : LocationState) (location : LocationData.t) :
  (exists auth' ls',
      updateLocation getMonth setDoc updateDoc stamp check rewardNow mark
        auth ls location = Ok (auth', ls'))
  /\ (currentUser auth = None \/ isLocationSharing ls = false ->
      updateLocation getMonth setDoc updateDoc stamp check rewardNow mark
        auth ls location = Ok (auth, ls))
  /\ (forall user e,
        currentUser auth = Some user -> isLocationSharing ls = true ->
        setDoc (uid user)
          (mkLocationDoc location (uid user)
             (orString (option_map displayName (userProfile auth)) "User")
             stamp) = Throw e ->
        updateLocation getMonth setDoc updateDoc stamp check rewardNow mark
          auth ls location
        = Ok (console_error auth ("Error updating location: " ++ e)%string,
              ls)).
Proof.
  exact (updateLocation_cases setDoc updateDoc stamp check rewardNow mark
           auth ls location).
Qed.

(** What a call does once the location write is accepted. *)
Lemma updateLocation_published
  (setDoc : string -> LocationDoc -> Result unit)
  (updateDoc : string -> UserDoc -> Result unit)
  (stamp check rewardNow mark : Date)
  (auth : AuthState) (ls : LocationState) (location : LocationData.t)
  (user : User) :
  currentUser auth = Some user -> isLocationSharing ls = true ->
  setDoc (uid user)
    (mkLocationDoc location (uid user)
       (orString (option_map displayName (userProfile auth)) "User") stamp)
  = Ok tt ->
  updateLocation getMonth setDoc updateDoc stamp check rewardNow mark
    auth ls location
  = match lastSpeedUpdate ls with
    | Some last =>
        if Num.geb (LocationData.speed location) 0
           && (30000 <=? getTime check - getTime last)%Z
        then
          await auth' <-
            updateUserRewards getMonth rewardNow updateDoc auth
              (mkSpeedData (LocationData.speed location)
                 (inject_Z (getTime check - getTime last) / (1000 * 60))) ;;
          Ok (auth', setCurrentLocation (setLastSpeedUpdate ls mark) location)
        else Ok (auth, setCurrentLocation ls location)
    | None =>
        if Num.geb (LocationData.speed location) 0
        then Ok (auth, setCurrentLocation (setLastSpeedUpdate ls mark) location)
        else Ok (auth, setCurrentLocation ls location)
    end.
Proof.
  intros Hu Hs Hd. unfold updateLocation. rewrite Hu, Hs, Hd. simpl.
  destruct (lastSpeedUpdate ls) as [last|];
    destruct (Num.geb (LocationData.speed location) 0); simpl; try reflexivity.
  destruct (30000 <=? getTime check - getTime last)%Z eqn:E.
  - apply Z.leb_le, half_minute in E. rewrite E.
    destruct (updateUserRewards_cases getMonth rewardNow updateDoc auth
                (mkSpeedData (LocationData.speed location)
                   (inject_Z (getTime check - getTime last) / (1000 * 60))))
      as (auth1 & -> & _).
    reflexivity.
  - assert (E' : Num.geb (inject_Z (getTime check - getTime last) / (1000 * 60))
                   (5 # 10) = false).
    { destruct (Num.geb _ (5 # 10)) eqn:G; [|reflexivity].
      apply half_minute, Z.leb_le in G. congruence. }
    rewrite E'. reflexivity.
Qed.

(** X15.  The profile is only ever changed through an observation of at
    least half a minute: if a call to [updateLocation] leaves a different
    [userProfile], then sharing was on, the sample's speed was
    non-negative, at least 30000 ms had passed since [lastSpeedUpdate], and
    the new profile is the one [updateUserRewards] computes for that speed
    over exactly that many minutes; [lastSpeedUpdate] has moved on. *)
Theorem rewards_rate_limited
  (setDoc : string -> LocationDoc -> Result unit)
  (updateDoc : string -> UserDoc -> Result unit)
  (stamp check rewardNow mark : Date)
  (auth auth' : AuthState) (ls ls' : LocationState)
  (location : LocationData.t) :
  updateLocation getMonth setDoc updateDoc stamp check rewardNow mark
    auth ls location = Ok (auth', ls') ->
  userProfile auth' <> userProfile auth ->
  exists p last,
    userProfile auth = Some p
    /\ lastSpeedUpdate ls = Some last
    /\ isLocationSharing ls = true
    /\ 0 <= LocationData.speed location
    /\ (30000 <= getTime check - getTime last)%Z
    /\ userProfile auth'
       = Some (updatedProfile getMonth rewardNow p
                 (mkSpeedData (LocationData.speed location)
                    (inject_Z (getTime check - getTime last) / (1000 * 60))))
    /\ lastSpeedUpdate ls' = Some mark.
Proof.
  intros Hrun Hchanged.
  destruct (currentUser auth) as [user|] eqn:Hu.
  2:{ rewrite (proj1 (proj2 (updateLocation_cases setDoc updateDoc stamp check
                               rewardNow mark auth ls location)))
        in Hrun by (left; exact Hu).
      injection Hrun as <- <-. congruence. }
  destruct (isLocationSharing ls) eqn:Hs.
  2:{ rewrite (proj1 (proj2 (updateLocation_cases setDoc updateDoc stamp check
                               rewardNow mark auth ls location)))
        in Hrun by (right; exact Hs).
      injection Hrun as <- <-. congruence. }
  destruct (setDoc (uid user)
              (mkLocationDoc location (uid user)
                 (orString (option_map displayName (userProfile auth)) "User")
                 stamp)) as [[]|e] eqn:Hd.
  2:{ rewrite (proj2 (proj2 (updateLocation_cases setDoc updateDoc stamp check
                               rewardNow mark auth ls location))
                 user e Hu Hs Hd) in Hrun.
      injection Hrun as <- <-. simpl in Hchanged. congruence. }
  rewrite (updateLocation_published setDoc updateDoc stamp check rewardNow mark
             auth ls location user Hu Hs Hd) in Hrun.
  destruct (lastSpeedUpdate ls) as [last|].
  2:{ destruct (Num.geb _ 0); injection Hrun as <- <-; congruence. }
  destruct (Num.geb (LocationData.speed location) 0) eqn:Hspeed;
    [|simpl in Hrun; injection Hrun as <- <-; congruence].
  destruct (30000 <=? getTime check - getTime last)%Z eqn:Hgap;
    [|simpl in Hrun; injection Hrun as <- <-; congruence].
  simpl in Hrun.
  destruct (updateUserRewards_cases getMonth rewardNow updateDoc auth
              (mkSpeedData (LocationData.speed location)
                 (inject_Z (getTime check - getTime last) / (1000 * 60))))
    as (auth1 & Hr & _ & [Hsame | (p & Hp & Hnew)]);
    rewrite Hr in Hrun; simpl in Hrun; injection Hrun as <- <-.
  - congruence.
  - exists p, last. repeat split; auto.
    + now apply geb_le.
    + now apply Z.leb_le.
Qed.

End PublishingFacts.

Section PublishingRuns.

Variable getMonth : Date -> Z.

(** A published sample whose interval has reached half a minute, with the
    reward write accepted. *)
Lemma updateLocation_rewarded
  (setDoc : string -> LocationDoc -> Result unit)
  (updateDoc : string -> UserDoc -> Result unit)
  (stamp check rewardNow mark : Date)
  (auth : AuthState) (ls : LocationState) (location : LocationData.t)
  (user : User) (p : UserProfile) (last : Date) :
  currentUser auth = Some user -> userProfile auth = Some p ->
  isLocationSharing ls = true -> lastSpeedUpdate ls = Some last ->
  (forall u d, setDoc u d = Ok tt) -> (forall u d, updateDoc u d = Ok tt) ->
  0 <= LocationData.speed location ->
  (30000 <= getTime check - getTime last)%Z ->
  updateLocation getMonth setDoc updateDoc stamp check rewardNow mark
    auth ls location
  = Ok (setUserProfile auth
          (updatedProfile getMonth rewardNow p
             (mkSpeedData (LocationData.speed location)
                (inject_Z (getTime check - getTime last) / (1000 * 60)))),
        setCurrentLocation (setLastSpeedUpdate ls mark) location).
Proof.
  intros Hu Hp Hs Hl Hset Hupd Hspeed Hgap.
  rewrite (updateLocation_published getMonth setDoc updateDoc stamp check
             rewardNow mark auth ls location user Hu Hs (Hset _ _)).
  rewrite Hl. apply geb_le in Hspeed. apply Z.leb_le in Hgap.
  rewrite Hspeed, Hgap. simpl.
  rewrite (updateUserRewards_stored getMonth rewardNow updateDoc auth _ user p
             Hu Hp (Hupd _ _)).
  reflexivity.
Qed.

(** X16.  Rate limiting loses no driving time: a sample published less than
    30 s after [lastSpeedUpdate] leaves the profile and [lastSpeedUpdate]
    alone, so the next sample that does reach 30 s is credited with the
    whole time since [lastSpeedUpdate], both intervals included. *)
Theorem short_gaps_accumulate
  (setDoc : string -> LocationDoc -> Result unit)
  (updateDoc : string -> UserDoc -> Result unit)
  (stamp1 check1 rewardNow1 mark1 stamp2 check2 rewardNow2 mark2 : Date)
  (auth : AuthState) (ls : LocationState) (early late : LocationData.t)
  (user : User) (p : UserProfile) (last : Date) :
  currentUser auth = Some user -> userProfile auth = Some p ->
  isLocationSharing ls = true -> lastSpeedUpdate ls = Some last ->
  (forall u d, setDoc u d = Ok tt) -> (forall u d, updateDoc u d = Ok tt) ->
  0 <= LocationData.speed late ->
  (getTime check1 - getTime last < 30000)%Z ->
  (30000 <= getTime check2 - getTime last)%Z ->
  exists auth2 ls2 p2,
    (await r <- updateLocation getMonth setDoc updateDoc stamp1 check1
                  rewardNow1 mark1 auth ls early ;;
     updateLocation getMonth setDoc updateDoc stamp2 check2 rewardNow2 mark2
       (fst r) (snd r) late)
    = Ok (auth2, ls2)
    /\ userProfile auth2 = Some p2
    /\ totalDrivingTime p2
       = totalDrivingTime p
         + inject_Z (getTime check2 - getTime last) / (1000 * 60)
    /\ lastSpeedUpdate ls2 = Some mark2.
Proof.
  intros Hu Hp Hs Hl Hset Hupd Hspeed Hshort Hlong.
  rewrite (updateLocation_published getMonth setDoc updateDoc stamp1 check1
             rewardNow1 mark1 auth ls early user Hu Hs (Hset _ _)).
  rewrite Hl.
  assert (E : (30000 <=? getTime check1 - getTime last)%Z = false)
    by (apply Z.leb_gt; exact Hshort).
  rewrite E, andb_false_r. simpl.
  rewrite (updateLocation_rewarded setDoc updateDoc stamp2 check2 rewardNow2
             mark2 auth (setCurrentLocation ls early) late user p last
             Hu Hp Hs Hl Hset Hupd Hspeed Hlong).
  do 3 eexists. split; [reflexivity|]. simpl. repeat split.
Qed.

(** X17.  A rejected reward write does not stop the publication: when the
    sample is published and due for a reward update but the profile write
    fails, [updateLocation] still returns normally, the profile is the one
    it read, the sample is the current location and [lastSpeedUpdate] is
    set to the new reading all the same. *)
Theorem failed_reward_write_still_marks
  (setDoc : string -> LocationDoc -> Result unit)
  (updateDoc : string -> UserDoc -> Result unit)
  (stamp check rewardNow mark : Date)
  (auth : AuthState) (ls : LocationState) (location : LocationData.t)
  (user : User) (p : UserProfile) (last : Date) (e : string) :
  currentUser auth = Some user -> userProfile auth = Some p ->
  isLocationSharing ls = true -> lastSpeedUpdate ls = Some last ->
  (forall u d, setDoc u d = Ok tt) ->
  (forall u d, updateDoc u d = Throw e) ->
  0 <= LocationData.speed location ->
  (30000 <= getTime check - getTime last)%Z ->
  exists auth' ls',
    updateLocation getMonth setDoc updateDoc stamp check rewardNow mark
      auth ls location = Ok (auth', ls')
    /\ userProfile auth' = Some p
    /\ lastSpeedUpdate ls' = Some mark
    /\ currentLocation ls' = Some location.
Proof.
  intros Hu Hp Hs Hl Hset Hupd Hspeed Hgap.
  rewrite (updateLocation_published getMonth setDoc updateDoc stamp check
             rewardNow mark auth ls location user Hu Hs (Hset _ _)).
  rewrite Hl. apply geb_le in Hspeed. apply Z.leb_le in Hgap.
  rewrite Hspeed, Hgap. simpl.
  rewrite (updateUserRewards_rejected getMonth rewardNow updateDoc auth _ user
             p e Hu Hp (Hupd _ _)).
  do 2 eexists. split; [reflexivity|]. simpl. auto.
Qed.

(** X18.  A pause is counted as driving: switching sharing off and on again
    does not touch [lastSpeedUpdate], so the first sample published after
    the pause is credited with all the minutes since the last update before
    it, at the sample's speed. *)
Theorem pause_counted_as_driving
  (setDoc : string -> LocationDoc -> Result unit)
  (updateDoc : string -> UserDoc -> Result unit)
  (stamp check rewardNow mark : Date)
  (auth : AuthState) (ls : LocationState) (location : LocationData.t)
  (user : User) (p : UserProfile) (last : Date)
  (geo : Geolocation) (accuracy : number) :
  currentUser auth = Some user -> userProfile auth = Some p ->
  isLocationSharing ls = true -> lastSpeedUpdate ls = Some last ->
  (forall u d, setDoc u d = Ok tt) -> (forall u d, updateDoc u d = Ok tt) ->
  0 <= LocationData.speed location ->
  (30000 <= getTime check - getTime last)%Z ->
  let off := fst (toggleLocationSharing geo ls) in
  let on := fst (toggleLocationSharing (geoPosition accuracy) off) in
  let minutes := inject_Z (getTime check - getTime last) / (1000 * 60) in
  exists auth' ls',
    updateLocation getMonth setDoc updateDoc stamp check rewardNow mark
      auth on location = Ok (auth', ls')
    /\ userProfile auth'
       = Some (updatedProfile getMonth rewardNow p
                 (mkSpeedData (LocationData.speed location) minutes))
    /\ totalDrivingTime (updatedProfile getMonth rewardNow p
                           (mkSpeedData (LocationData.speed location) minutes))
       = totalDrivingTime p + minutes.
Proof.
  intros Hu Hp Hs Hl Hset Hupd Hspeed Hgap. cbv zeta.
  rewrite (toggle_off geo ls Hs). cbn [fst].
  set (on := fst (toggleLocationSharing (geoPosition accuracy) _)).
  assert (Hs' : isLocationSharing on = true) by reflexivity.
  assert (Hl' : lastSpeedUpdate on = Some last) by exact Hl.
  rewrite (updateLocation_rewarded setDoc updateDoc stamp check rewardNow mark
             auth on location user p last Hu Hp Hs' Hl' Hset Hupd Hspeed Hgap).
  do 2 eexists. split; [reflexivity|]. split; reflexivity.
Qed.

End PublishingRuns.

(** * The circle members' view *)

Lemma orNumber_nonzero (x : option number) (fallback : number) :
  ~ fallback == 0 -> ~ orNumber x fallback == 0.
Proof.
  intro Hf. unfold orNumber. destruct x as [v|]; [|exact Hf].
  destruct (Qeq_bool v 0) eqn:E; [exact Hf|].
  now apply Qeq_bool_neq.
Qed.

Lemma orNumber_zero (fallback : number) :
  orNumber (Some 0) fallback = fallback.
Proof. reflexivity. Qed.

(** X19.  The [lastSeen] text of a location record: "now" below one
    minute (also for a record stamped in the future), then whole minutes
    from 1 to 59, whole hours from 1 to 23, and whole days from 1 on. *)
Theorem lastSeenText_buckets (timeDiff : Z) :
  ((timeDiff < 60000)%Z -> lastSeenText timeDiff = "now"%string)
  /\ ((60000 <= timeDiff < 3600000)%Z ->
      exists n, (1 <= n <= 59)%Z
                /\ lastSeenText timeDiff = (showZ n ++ " min ago")%string)
  /\ ((3600000 <= timeDiff < 86400000)%Z ->
      exists n, (1 <= n <= 23)%Z
                /\ lastSeenText timeDiff = (showZ n ++ " hr ago")%string)
  /\ ((86400000 <= timeDiff)%Z ->
      exists n, (1 <= n)%Z
                /\ lastSeenText timeDiff = (showZ n ++ " days ago")%string).
Proof.
  unfold lastSeenText. repeat split.
  - intro H. apply Z.ltb_lt in H. rewrite H. reflexivity.
  - intros [H1 H2].
    assert (E1 : (timeDiff <? 60000)%Z = false) by (apply Z.ltb_ge; lia).
    assert (E2 : (timeDiff <? 3600000)%Z = true) by (apply Z.ltb_lt; lia).
    rewrite E1, E2. exists (timeDiff / 60000)%Z. split; [|reflexivity].
    split.
    + apply Z.div_le_lower_bound; lia.
    + assert (timeDiff / 60000 < 60)%Z
        by (apply Z.div_lt_upper_bound; lia). lia.
  - intros [H1 H2].
    assert (E1 : (timeDiff <? 60000)%Z = false) by (apply Z.ltb_ge; lia).
    assert (E2 : (timeDiff <? 3600000)%Z = false) by (apply Z.ltb_ge; lia).
    assert (E3 : (timeDiff <? 86400000)%Z = true) by (apply Z.ltb_lt; lia).
    rewrite E1, E2, E3. exists (timeDiff / 3600000)%Z. split; [|reflexivity].
    split.
    + apply Z.div_le_lower_bound; lia.
    + assert (timeDiff / 3600000 < 24)%Z
        by (apply Z.div_lt_upper_bound; lia). lia.
  - intros H1.
    assert (E1 : (timeDiff <? 60000)%Z = false) by (apply Z.ltb_ge; lia).
    assert (E2 : (timeDiff <? 3600000)%Z = false) by (apply Z.ltb_ge; lia).
    assert (E3 : (timeDiff <? 86400000)%Z = false) by (apply Z.ltb_ge; lia).
    rewrite E1, E2, E3. exists (timeDiff / 86400000)%Z. split; [|reflexivity].
    apply Z.div_le_lower_bound; lia.
Qed.

Lemma circleMember_fields (memberId : string) (userData : StoredUser)
  (locationSnapshot : option StoredLocation) (fresh : Date)
  (seenNow onlineNow : Z) :
  let m := circleMember memberId userData locationSnapshot fresh seenNow
             onlineNow in
  CircleMember.location m = fst (memberLocation locationSnapshot fresh seenNow)
  /\ CircleMember.lastSeen m
     = snd (memberLocation locationSnapshot fresh seenNow)
  /\ CircleMember.safetyScore m = orNumber (storedSafetyScore userData) 100
  /\ CircleMember.totalRewards m = orNumber (storedTotalRewards userData) 0
  /\ CircleMember.isOnline m
     = (onlineNow
        - LocationData.lastUpdated
            (fst (memberLocation locationSnapshot fresh seenNow))
        <? 300000)%Z.
Proof.
  cbv zeta. unfold circleMember.
  destruct (memberLocation _ _ _) as [locationData lastSeen]. simpl.
  repeat split.
Qed.

(** X20.  Zero reads as missing in the member list: a member's safety score
    and battery are never shown as 0, because a stored safety score of 0
    comes out as 100 and a stored battery of 0 as 85 (and a stored accuracy
    of 0 as 10). *)
Theorem member_zero_reads_as_default (memberId : string)
  (userData : StoredUser) (locationSnapshot : option StoredLocation)
  (fresh : Date) (seenNow onlineNow : Z) :
  let m := circleMember memberId userData locationSnapshot fresh seenNow
             onlineNow in
  ~ CircleMember.safetyScore m == 0
  /\ ~ LocationData.battery (CircleMember.location m) == 0
  /\ ~ LocationData.accuracy (CircleMember.location m) == 0
  /\ (storedSafetyScore userData = Some 0 -> CircleMember.safetyScore m = 100)
  /\ (forall locData,
        locationSnapshot = Some locData -> storedBattery locData = Some 0 ->
        LocationData.battery (CircleMember.location m) = 85).
Proof.
  pose proof (circleMember_fields memberId userData locationSnapshot fresh
                seenNow onlineNow) as (El & _ & Es & _).
  cbv zeta in *. rewrite El, Es. repeat split.
  - apply orNumber_nonzero. discriminate.
  - destruct locationSnapshot as [locData|]; simpl;
      [apply orNumber_nonzero|]; discriminate.
  - destruct locationSnapshot as [locData|]; simpl;
      [apply orNumber_nonzero|]; discriminate.
  - intros ->. reflexivity.
  - intros locData -> Hb. simpl. rewrite Hb. reflexivity.
Qed.

Section MemberView.

Variable M : MathLib.

(** X21.  A circle member's own device and the other members disagree on
    [isDriving]: the sample says driving above 2 mph, the member list
    recomputes it from the stored speed as above 3 mph.  So the list never
    shows driving when the sample did not, and the two differ exactly when
    the smoothed speed is 3. *)
Theorem peers_see_driving_above_three (tr : Tracker) (coords : Coords.t)
  (now : Z) (battery : number) (detectNow stamp : Z)
  (stored fresh : Date) (seenNow : Z) :
  let sample := snd (onPosition M tr coords now battery detectNow stamp) in
  let seen :=
    fst (memberLocation (Some (storedSample sample stored)) fresh seenNow) in
  LocationData.isDriving seen = Num.gtb (LocationData.speed sample) 3
  /\ LocationData.speed seen == LocationData.speed sample
  /\ (LocationData.isDriving seen = true ->
      LocationData.isDriving sample = true)
  /\ (LocationData.isDriving sample = true
      /\ LocationData.isDriving seen = false
      <-> LocationData.speed sample == 3).
Proof.
  cbv zeta.
  set (sample := snd (onPosition M tr coords now battery detectNow stamp)).
  assert (Hown : LocationData.isDriving sample
                 = Num.gtb (LocationData.speed sample) 2).
  { unfold sample, onPosition. cbv zeta.
    destruct (smoothSpeed _ _) as [history smoothed]. simpl.
    destruct (detectMovement _ _ _ _), (Num.gtb smoothed 2); reflexivity. }
  assert (Hint : isInteger (LocationData.speed sample)).
  { unfold sample.
    rewrite (proj1 (onPosition_sample_speed M tr coords now battery detectNow
                      stamp)).
    rewrite smoothSpeed_value. eexists. reflexivity. }
  destruct Hint as (y & Ey).
  simpl. unfold storedDriving. simpl. rewrite Hown, Ey.
  split; [reflexivity|]. split.
  - unfold orNumber. destruct (Qeq_bool (inject_Z y) 0) eqn:E; [|reflexivity].
    apply Qeq_bool_eq in E. symmetry. exact E.
  - change 3 with (inject_Z 3). change 2 with (inject_Z 2).
    split; [|split].
    + rewrite !gtb_lt, <- !Zlt_Qlt. lia.
    + intros [H2 H3]. apply gtb_lt in H2. apply gtb_le in H3.
      rewrite <- Zlt_Qlt in H2. rewrite <- Zle_Qle in H3.
      replace y with 3%Z by lia. reflexivity.
    + intro E. rewrite (proj1 (inject_Z_injective y 3) E).
      split; reflexivity.
Qed.

End MemberView.

(** X22.  A member with no location record, or with a record that carries
    no timestamp, is treated as updated at the moment of the refresh: shown
    as online, although the last-seen text of a member without record is
    "Never". *)
Theorem member_without_timestamp_is_online (memberId : string)
  (userData : StoredUser) (locationSnapshot : option StoredLocation)
  (fresh : Date) (seenNow onlineNow : Z) :
  match locationSnapshot with
  | Some locData => storedLastUpdated locData = None
  | None => True
  end ->
  (getTime fresh <= onlineNow < getTime fresh + 300000)%Z ->
  let m := circleMember memberId userData locationSnapshot fresh seenNow
             onlineNow in
  CircleMember.isOnline m = true
  /\ (locationSnapshot = None -> CircleMember.lastSeen m = "Never"%string).
Proof.
  intros Hmissing Hclock.
  pose proof (circleMember_fields memberId userData locationSnapshot fresh
                seenNow onlineNow) as (_ & Els & _ & _ & Eon).
  cbv zeta in *. rewrite Els, Eon. split.
  - apply Z.ltb_lt.
    destruct locationSnapshot as [locData|]; simpl;
      [rewrite Hmissing|]; simpl; lia.
  - intros ->. reflexivity.
Qed.

(** X23.  With a clock that does not run backwards between the two
    readings, a member shown as online was last seen "now" or between 1 and
    4 minutes ago. *)
Theorem online_member_seen_recently (memberId : string) (userData : StoredUser)
  (locData : StoredLocation) (updated fresh : Date) (seenNow onlineNow : Z) :
  storedLastUpdated locData = Some updated ->
  (seenNow <= onlineNow)%Z ->
  let m := circleMember memberId userData (Some locData) fresh seenNow
             onlineNow in
  CircleMember.isOnline m = true ->
  CircleMember.lastSeen m = "now"%string
  \/ exists n, (1 <= n <= 4)%Z
               /\ CircleMember.lastSeen m = (showZ n ++ " min ago")%string.
Proof.
  intros Hup Hclock.
  pose proof (circleMember_fields memberId userData (Some locData) fresh
                seenNow onlineNow) as (_ & Els & _ & _ & Eon).
  cbv zeta in *. rewrite Els, Eon. simpl. rewrite Hup.
  intro Hon. apply Z.ltb_lt in Hon.
  unfold lastSeenText.
  destruct (seenNow - getTime updated <? 60000)%Z eqn:E1; [now left|].
  apply Z.ltb_ge in E1.
  assert (E2 : (seenNow - getTime updated <? 3600000)%Z = true)
    by (apply Z.ltb_lt; lia).
  rewrite E2. right. exists ((seenNow - getTime updated) / 60000)%Z.
  split; [|reflexivity]. split.
  - apply Z.div_le_lower_bound; lia.
  - assert ((seenNow - getTime updated) / 60000 < 5)%Z
      by (apply Z.div_lt_upper_bound; lia). lia.
Qed.

(** * Joining and leaving a circle *)

Lemma includes_In (joined : list string) (code : string) :
  includes joined code = true <-> In code joined.
Proof.
  unfold includes. rewrite existsb_exists. split.
  - intros (x & Hx & E). apply String.eqb_eq in E. now subst.
  - intro H. exists code. split; [exact H | apply String.eqb_refl].
Qed.

Lemma filter_out_appended (joined : list string) (code : string) :
  includes joined code = false ->
  filter (fun c => negb (String.eqb c code)) (joined ++ [code]) = joined.
Proof.
  intro H. rewrite filter_app. simpl. rewrite String.eqb_refl. simpl.
  rewrite app_nil_r.
  induction joined as [|c rest IH]; [reflexivity|].
  unfold includes in H. simpl in H. apply orb_false_elim in H as [Hc Hrest].
  simpl. rewrite String.eqb_sym, Hc. simpl. f_equal. now apply IH.
Qed.

Lemma withJoinedCircles_same (p : UserProfile) :
  withJoinedCircles p (joinedCircles p) = p.
Proof. destruct p. reflexivity. Qed.

Lemma withJoinedCircles_twice (p : UserProfile) (a b : list string) :
  withJoinedCircles (withJoinedCircles p a) b = withJoinedCircles p b.
Proof. reflexivity. Qed.

(** What a normal return of [joinCircle] implies. *)
Lemma joinCircle_returns (backend : Backend) (auth : AuthState)
  (error : option string) (circleCode : string) :
  let out := joinCircle backend auth error circleCode in
  outResult out = Ok tt ->
  exists user profile members,
    currentUser auth = Some user
    /\ userProfile auth = Some profile
    /\ findCircle backend circleCode = Ok (Some members)
    /\ (length (joinedCircles profile) <= 1)%nat
    /\ ~ In circleCode (joinedCircles profile)
    /\ userProfile (outAuth out)
       = Some (withJoinedCircles profile
                 (joinedCircles profile ++ [circleCode]))
    /\ outWrites out
       = [SetCircleMembers circleCode (members ++ [uid user]);
          SetJoinedCircles (uid user) (joinedCircles profile ++ [circleCode])]
    /\ outError out = None.
Proof.
  cbv zeta. unfold joinCircle, rethrow.
  destruct (currentUser auth) as [user|]; [|discriminate].
  destruct (userProfile auth) as [profile|]; [|discriminate].
  cbv zeta.
  destruct (1 <? length (joinedCircles profile))%nat eqn:Elen; [discriminate|].
  destruct (findCircle backend circleCode) as [[members|]|e];
    try discriminate.
  destruct (includes (joinedCircles profile) circleCode) eqn:Einc;
    [discriminate|].
  destruct (accepts backend (SetCircleMembers _ _)) as [[]|e]; [|discriminate].
  destruct (accepts backend (SetJoinedCircles _ _)) as [[]|e]; [|discriminate].
  intros _. exists user, profile, members. simpl.
  apply Nat.ltb_ge in Elen.
  repeat split; auto.
  intro Hin. apply includes_In in Hin. congruence.
Qed.

(** X24.  [joinCircle] returns normally only for a signed-in user who
    holds at most one circle, does not hold this one, and names a circle
    that exists; it then has appended the user to the circle's members and
    the circle to the end of the profile's [joinedCircles], in the store
    and in memory, and cleared [error]. *)
Theorem joinCircle_success (backend : Backend) (auth : AuthState)
  (error : option string) (circleCode : string) :
  let out := joinCircle backend auth error circleCode in
  outResult out = Ok tt ->
  exists user profile members,
    currentUser auth = Some user
    /\ userProfile auth = Some profile
    /\ findCircle backend circleCode = Ok (Some members)
    /\ (length (joinedCircles profile) <= 1)%nat
    /\ ~ In circleCode (joinedCircles profile)
    /\ userProfile (outAuth out)
       = Some (withJoinedCircles profile
                 (joinedCircles profile ++ [circleCode]))
    /\ outWrites out
       = [SetCircleMembers circleCode (members ++ [uid user]);
          SetJoinedCircles (uid user) (joinedCircles profile ++ [circleCode])]
    /\ outError out = None.
Proof.
  exact (joinCircle_returns backend auth error circleCode).
Qed.



Lemma joinCircle_accepted (backend : Backend) (auth : AuthState)
  (error : option string) (circleCode : string) (user : User)
  (profile : UserProfile) (members : list string) :
  currentUser auth = Some user -> userProfile auth = Some profile ->
  (length (joinedCircles profile) <= 1)%nat ->
  ~ In circleCode (joinedCircles profile) ->
  findCircle backend circleCode = Ok (Some members) ->
  accepts backend (SetCircleMembers circleCode (members ++ [uid user]))
  = Ok tt ->
  accepts backend
    (SetJoinedCircles (uid user) (joinedCircles profile ++ [circleCode]))
  = Ok tt ->
  joinCircle backend auth error circleCode
  = mkOutcome
      (setUserProfile auth
         (withJoinedCircles profile (joinedCircles profile ++ [circleCode])))
      None
      [SetCircleMembers circleCode (members ++ [uid user]);
       SetJoinedCircles (uid user) (joinedCircles profile ++ [circleCode])]
      (Ok tt).
Proof.
  intros Hu Hp Hlen Hnot Hfind Hfirst Hsecond.
  unfold joinCircle. rewrite Hu, Hp. cbv zeta.
  apply Nat.ltb_ge in Hlen. rewrite Hlen, Hfind.
  destruct (includes (joinedCircles profile) circleCode) eqn:E.
  - apply includes_In in E. contradiction.
  - rewrite Hfirst, Hsecond. reflexivity.
Qed.

(** X26.  A join can stop half way: when the store accepts the circle's new
    member list and then rejects the profile update, [joinCircle] throws
    with the profile unchanged while the circle already lists the user.  A
    retry is not refused and appends the user to the member list a second
    time. *)
Theorem joinCircle_half_done (backend retry : Backend) (auth : AuthState)
  (error : option string) (circleCode : string) (user : User)
  (profile : UserProfile) (members : list string) (e : string) :
  currentUser auth = Some user -> userProfile auth = Some profile ->
  (length (joinedCircles profile) <= 1)%nat ->
  ~ In circleCode (joinedCircles profile) ->
  findCircle backend circleCode = Ok (Some members) ->
  accepts backend (SetCircleMembers circleCode (members ++ [uid user]))
  = Ok tt ->
  accepts backend
    (SetJoinedCircles (uid user) (joinedCircles profile ++ [circleCode]))
  = Throw e ->
  findCircle retry circleCode = Ok (Some (members ++ [uid user])) ->
  (forall w, accepts retry w = Ok tt) ->
  let out := joinCircle backend auth error circleCode in
  let again := joinCircle retry (outAuth out) (outError out) circleCode in
  outResult out = Throw e
  /\ userProfile (outAuth out) = Some profile
  /\ outWrites out = [SetCircleMembers circleCode (members ++ [uid user])]
  /\ outError out = Some (orString (Some e) "Failed to join circle")
  /\ outResult again = Ok tt
  /\ outWrites again
     = [SetCircleMembers circleCode ((members ++ [uid user]) ++ [uid user]);
        SetJoinedCircles (uid user) (joinedCircles profile ++ [circleCode])].
Proof.
  intros Hu Hp Hlen Hnot Hfind Hfirst Hsecond Hfind' Hall. cbv zeta.
  assert (Elen : (1 <? length (joinedCircles profile))%nat = false)
    by (apply Nat.ltb_ge; exact Hlen).
  assert (Einc : includes (joinedCircles profile) circleCode = false).
  { destruct (includes _ _) eqn:E; [|reflexivity].
    apply includes_In in E. contradiction. }
  assert (Eout : joinCircle backend auth error circleCode
                 = rethrow "Join circle error: " "Failed to join circle" auth
                     [SetCircleMembers circleCode (members ++ [uid user])] e).
  { unfold joinCircle. rewrite Hu, Hp. cbv zeta.
    rewrite Elen, Hfind, Einc, Hfirst, Hsecond. reflexivity. }
  rewrite Eout. unfold rethrow. cbn [outAuth outError outWrites outResult].
  rewrite (joinCircle_accepted retry
             (console_error auth ("Join circle error: " ++ e)%string)
             (Some (orString (Some e) "Failed to join circle")) circleCode
             user profile (members ++ [uid user]) Hu Hp Hlen Hnot Hfind'
             (Hall _) (Hall _)).
  simpl. repeat split; try reflexivity. exact Hp.
Qed.

Lemma leaveCircle_accepted (backend : Backend) (auth : AuthState)
  (error : option string) (ownCircle : option string) (circleCode : string)
  (user : User) (profile : UserProfile) (found : option (list string)) :
  currentUser auth = Some user -> userProfile auth = Some profile ->
  match ownCircle with
  | Some own => String.eqb circleCode own
  | None => false
  end = false ->
  includes (joinedCircles profile) circleCode = true ->
  findCircle backend circleCode = Ok found ->
  (forall w, accepts backend w = Ok tt) ->
  let out := leaveCircle backend auth error ownCircle circleCode in
  outResult out = Ok tt
  /\ userProfile (outAuth out)
     = Some (withJoinedCircles profile
               (filter (fun code => negb (String.eqb code circleCode))
                       (joinedCircles profile)))
  /\ outError out = None.
Proof.
  intros Hu Hp Eown Ein Hfind Hall. cbv zeta.
  unfold leaveCircle. rewrite Hu, Hp. cbv zeta.
  rewrite Eown, Ein, Hfind. cbn [negb].
  destruct found as [ms|]; rewrite !Hall; repeat split.
Qed.

(** X27.  Leaving undoes joining: after a successful [joinCircle], a
    [leaveCircle] of the same circle (which is not the user's own) against
    a store that answers and accepts the writes returns normally and puts
    the profile back exactly as it was before the join. *)
Theorem join_then_leave_restores (backend later : Backend) (auth : AuthState)
  (error : option string) (ownCircle : option string) (circleCode : string)
  (found : option (list string)) :
  ownCircle <> Some circleCode ->
  findCircle later circleCode = Ok found ->
  (forall w, accepts later w = Ok tt) ->
  let out := joinCircle backend auth error circleCode in
  let out' :=
    leaveCircle later (outAuth out) (outError out) ownCircle circleCode in
  outResult out = Ok tt ->
  outResult out' = Ok tt
  /\ userProfile (outAuth out') = userProfile auth
  /\ outError out' = None.
Proof.
  intros Hown Hfind Hall. cbv zeta. intro Hok.
  destruct (joinCircle_returns backend auth error circleCode Hok)
    as (user & profile & members & Hu & Hp & Hf & Hlen & Hnot & Hnew & _ & _).
  assert (Hu' : currentUser (outAuth (joinCircle backend auth error circleCode))
                = Some user).
  { revert Hok. unfold joinCircle, rethrow. rewrite Hu, Hp. cbv zeta.
    destruct (1 <? _)%nat; [discriminate|].
    rewrite Hf.
    destruct (includes _ _); [discriminate|].
    destruct (accepts backend (SetCircleMembers _ _)) as [[]|e];
      [|discriminate].
    destruct (accepts backend (SetJoinedCircles _ _)) as [[]|e];
      [|discriminate].
    intros _. exact Hu. }
  assert (Einc : includes (joinedCircles profile) circleCode = false).
  { destruct (includes _ _) eqn:E; [|reflexivity].
    apply includes_In in E. contradiction. }
  assert (Eown : match ownCircle with
                 | Some own => String.eqb circleCode own
                 | None => false
                 end = false).
  { destruct ownCircle as [own|]; [|reflexivity].
    apply String.eqb_neq. congruence. }
  assert (Ein : includes (joinedCircles profile ++ [circleCode]) circleCode
                = true).
  { apply includes_In, in_or_app. right. now left. }
  destruct (leaveCircle_accepted later _ (outError (joinCircle backend auth
                                                      error circleCode))
              ownCircle circleCode user _ found Hu' Hnew Eown Ein Hfind Hall)
    as (Hres & Hprof & Herr).
  rewrite Hres, Hprof, Herr. repeat split.
  simpl joinedCircles. rewrite (filter_out_appended _ _ Einc).
  rewrite withJoinedCircles_twice, withJoinedCircles_same. symmetry. exact Hp.
Qed.

(** X28.  [leaveCircle] removes nothing but the circle it is given, and
    never the user's own: whatever the store does and whether the call
    returns or throws, every other circle of the profile is still there
    afterwards, the own circle included. *)
Theorem leaveCircle_keeps_other_circles (backend : Backend) (auth : AuthState)
  (error : option string) (ownCircle : option string) (circleCode : string)
  (p : UserProfile) :
  userProfile auth = Some p ->
  let out := leaveCircle backend auth error ownCircle circleCode in
  exists p',
    userProfile (outAuth out) = Some p'
    /\ (forall c, c <> circleCode ->
                  (In c (joinedCircles p') <-> In c (joinedCircles p)))
    /\ (forall own, ownCircle = Some own ->
                    In own (joinedCircles p) -> In own (joinedCircles p')).
Proof.
  intro Hp. cbv zeta.
  assert (Hkeep : forall q, joinedCircles q = joinedCircles p ->
            (forall c, c <> circleCode ->
                       (In c (joinedCircles q) <-> In c (joinedCircles p)))
            /\ (forall own, ownCircle = Some own ->
                            In own (joinedCircles p) -> In own (joinedCircles q))).
  { intros q ->. split; [tauto | auto]. }
  unfold leaveCircle, rethrow. rewrite Hp.
  destruct (currentUser auth) as [user|]; [|exists p; simpl; auto].
  cbv zeta.
  destruct (match ownCircle with
            | Some own => String.eqb circleCode own
            | None => false
            end) eqn:Eown; [exists p; simpl; auto|].
  destruct (negb (includes (joinedCircles p) circleCode));
    [exists p; simpl; auto|].
  assert (Hdone : forall c,
            In c (filter (fun code => negb (String.eqb code circleCode))
                    (joinedCircles p))
            <-> In c (joinedCircles p) /\ c <> circleCode).
  { intro c. rewrite filter_In, negb_true_iff, String.eqb_neq. tauto. }
  assert (Hleft : forall q,
            joinedCircles q
            = filter (fun code => negb (String.eqb code circleCode))
                (joinedCircles p) ->
            (forall c, c <> circleCode ->
                       (In c (joinedCircles q) <-> In c (joinedCircles p)))
            /\ (forall own, ownCircle = Some own ->
                            In own (joinedCircles p) -> In own (joinedCircles q))).
  { intros q ->. split.
    - intros c Hc. rewrite Hdone. tauto.
    - intros own -> Hin. apply Hdone. split; [exact Hin|].
      apply String.eqb_neq in Eown. congruence. }
  destruct (findCircle backend circleCode) as [[members|]|e];
    [| |exists p; simpl; auto].
  - destruct (accepts backend (SetCircleMembers _ _)) as [[]|e];
      [|exists p; simpl; auto].
    destruct (accepts backend (SetJoinedCircles _ _)) as [[]|e];
      [|exists p; simpl; auto].
    eexists. simpl. split; [reflexivity|]. apply Hleft. reflexivity.
  - destruct (accepts backend (SetJoinedCircles _ _)) as [[]|e];
      [|exists p; simpl; auto].
    eexists. simpl. split; [reflexivity|]. apply Hleft. reflexivity.
Qed.

(** * The further properties at concrete inputs *)

Lemma newAverageSpeed_weighted_mean_witness :
  55 <= newAverageSpeed veteran (mkSpeedData 90 60)
  /\ newAverageSpeed veteran (mkSpeedData 90 60) <= 90.
Proof.
  assert (H1 : 0 <= totalDrivingTime veteran) by discriminate.
  assert (H2 : 0 <= duration (mkSpeedData 90 60)) by discriminate.
  assert (H3 : 55 <= averageSpeed veteran) by discriminate.
  assert (H4 : averageSpeed veteran <= 90) by discriminate.
  assert (H5 : 55 <= speed (mkSpeedData 90 60)) by discriminate.
  assert (H6 : speed (mkSpeedData 90 60) <= 90) by discriminate.
  exact (proj2 (proj2 (newAverageSpeed_weighted_mean veteran
                         (mkSpeedData 90 60) 55 90 H1 H2 H3 H4 H5 H6))).
Defined.

Lemma sub_hour_observation_pays_nothing_witness :
  rewardChange (deltas Host.utcMonth sameMonth veteran (halfMinuteAt 90)) == 0.
Proof.
  assert (H1 : 0 <= duration (halfMinuteAt 90)) by discriminate.
  assert (H2 : duration (halfMinuteAt 90) < 60) by reflexivity.
  assert (H3 : totalDrivingTime veteran + duration (halfMinuteAt 90) < 30 * 60)
    by reflexivity.
  exact (proj1 (sub_hour_observation_pays_nothing Host.utcMonth sameMonth
                  veteran (halfMinuteAt 90) H1 H2 H3)).
Defined.

(** Half a minute at 60 mph, twice within the same second. *)
Lemma monthly_bonus_has_no_gate_witness :
  150 <= rewardChange (deltas Host.utcMonth sameMonth seasoned
                         (halfMinuteAt 60))
  /\ 150 <= rewardChange
              (deltas Host.utcMonth sameMonth
                 (updatedProfile Host.utcMonth sameMonth seasoned
                    (halfMinuteAt 60))
                 (halfMinuteAt 60)).
Proof.
  set (p1 := updatedProfile Host.utcMonth sameMonth seasoned
               (halfMinuteAt 60)).
  assert (Hs : speed (halfMinuteAt 60) <= 65) by discriminate.
  assert (Hd : 0 <= duration (halfMinuteAt 60)) by discriminate.
  assert (HT : 30 * 60 <= totalTime seasoned (halfMinuteAt 60))
    by (vm_compute; discriminate).
  assert (Ha : newAverageSpeed seasoned (halfMinuteAt 60) <= 65)
    by (vm_compute; discriminate).
  assert (HT1 : 30 * 60 <= totalTime p1 (halfMinuteAt 60))
    by (vm_compute; discriminate).
  assert (Ha1 : newAverageSpeed p1 (halfMinuteAt 60) <= 65)
    by (vm_compute; discriminate).
  split.
  - exact (proj1 (monthly_bonus_has_no_gate Host.utcMonth sameMonth seasoned
                    (halfMinuteAt 60) Hs Hd HT Ha)).
  - exact (proj1 (monthly_bonus_has_no_gate Host.utcMonth sameMonth p1
                    (halfMinuteAt 60) Hs Hd HT1 Ha1)).
Defined.


Lemma session_keeps_last_stored_call_witness :
  exists st' p',
    runSession Host.utcMonth (signedIn veteran) (signedIn veteran)
      (sessionCalls ++ [lastCall]) = Ok st'
    /\ userProfile st' = Some p'
    /\ p' = updatedProfile Host.utcMonth (callNow lastCall) veteran
              (callData lastCall)
    /\ totalDrivingTime p'
       = totalDrivingTime veteran + duration (callData lastCall)
    /\ weeklyRewards p'
       = weeklyRewards veteran
         + Num.max 0
             (rewardChange (deltas Host.utcMonth (callNow lastCall) veteran
                              (callData lastCall))).
Proof.
  exact (session_keeps_last_stored_call Host.utcMonth (signedIn veteran)
           (signedIn veteran) ada veteran sessionCalls lastCall
           eq_refl eq_refl (fun _ _ => eq_refl)).
Defined.

(** Two stored calls in December on a profile last checked in November. *)
Lemma session_resets_on_every_call_witness :
  Host.utcMonth (callNow lastCall) <> Host.utcMonth (lastCheck veteran)
  /\ exists st' p',
       runSession Host.utcMonth (signedIn veteran) (signedIn veteran)
         ([lastCall] ++ [lastCall]) = Ok st'
       /\ userProfile st' = Some p'
       /\ monthlyRewards p'
          = 0 + Num.max 0
                  (rewardChange
                     (deltas Host.utcMonth (callNow lastCall) veteran
                        (callData lastCall)))
       /\ speedViolations p'
          == 0 + (if Num.gtb (speed (callData lastCall)) 75 then 1 else 0).
Proof.
  assert (Hm : Host.utcMonth (callNow lastCall)
               <> Host.utcMonth (lastCheck veteran))
    by (intro H; discriminate H).
  split; [exact Hm|].
  exact (session_resets_on_every_call Host.utcMonth (signedIn veteran)
           (signedIn veteran) ada veteran [lastCall] lastCall
           eq_refl eq_refl (fun _ _ => eq_refl) Hm).
Defined.

Lemma smoothSpeed_within_window_witness :
  inject_Z 20 <= snd (smoothSpeed [20; 24; 30; 22; 95] 28)
  /\ snd (smoothSpeed [20; 24; 30; 22; 95] 28) <= inject_Z 95.
Proof.
  assert (Hw : Forall (fun s => inject_Z 20 <= s /\ s <= inject_Z 95)
                 (fst (smoothSpeed [20; 24; 30; 22; 95] 28))).
  { repeat constructor; discriminate. }
  pose proof (smoothSpeed_within_window [20; 24; 30; 22; 95] 28 20 95 Hw)
    as (Hlo & Hhi & _).
  exact (conj Hlo Hhi).
Defined.

Lemma calculateSpeed_range_witness :
  (6000 <> 0)%Z
  /\ 0 <= haversineTerm Host.smallAngle 40 (- (74)) (40 + (1 # 1000)) (- (74))
  /\ haversineTerm Host.smallAngle 40 (- (74)) (40 + (1 # 1000)) (- (74)) <= 1
  /\ 0 <= calculateSpeed Host.smallAngle 40 (- (74)) (40 + (1 # 1000))
            (- (74)) 6000
  /\ calculateSpeed Host.smallAngle 40 (- (74)) (40 + (1 # 1000)) (- (74))
       6000 <= 150.
Proof.
  assert (Ht : (6000 <> 0)%Z) by discriminate.
  assert (Hlo : 0 <= haversineTerm Host.smallAngle 40 (- (74))
                       (40 + (1 # 1000)) (- (74)))
    by (vm_compute; discriminate).
  assert (Hhi : haversineTerm Host.smallAngle 40 (- (74))
                  (40 + (1 # 1000)) (- (74)) <= 1)
    by (vm_compute; discriminate).
  pose proof (calculateSpeed_range Host.smallAngle 40 (- (74))
                (40 + (1 # 1000)) (- (74)) 6000 Ht Hlo Hhi)
    as (H0 & H150 & _).
  repeat split; assumption.
Defined.

(** A device reporting a negative speed, six seconds after a fix at 30 mph
    a thousandth of a degree further south. *)
Lemma sample_speed_nonneg_witness :
  let tr := mkTracker [30] []
              (Some (LastPosition.mk 40 (- (74)) 1700000000000 30)) medium in
  speedsNonneg tr
  /\ 0 <= LocationData.speed
            (snd (onPosition Host.smallAngle tr
                    (Coords.mk (40 + (1 # 1000)) (- (74)) 5 None None
                               (Some (- (3))))
                    1700000006000 80 1700000006000 1700000006000)).
Proof.
  cbv zeta.
  set (tr := mkTracker [30] []
               (Some (LastPosition.mk 40 (- (74)) 1700000000000 30)) medium).
  assert (Hinv : speedsNonneg tr).
  { split; [repeat constructor|]; discriminate. }
  assert (Hterm : forall lp, lastPosition tr = Some lp ->
            0 <= haversineTerm Host.smallAngle (LastPosition.lat lp)
                   (LastPosition.lon lp) (40 + (1 # 1000)) (- (74))
            /\ haversineTerm Host.smallAngle (LastPosition.lat lp)
                 (LastPosition.lon lp) (40 + (1 # 1000)) (- (74)) <= 1).
  { intros lp E. injection E as <-. split; vm_compute; discriminate. }
  split; [exact Hinv|].
  exact (proj1 (proj2 (sample_speed_nonneg Host.smallAngle tr
                         (Coords.mk (40 + (1 # 1000)) (- (74)) 5 None None
                                    (Some (- (3))))
                         1700000006000 80 1700000006000 1700000006000
                         Hinv Hterm))).
Defined.

(** Four fixes at 10 m/s handled by a callback registered on the history
    [[3; 80; 0]]: each sample is smoothed against those three speeds. *)
Lemma session_smoothing_has_no_memory_witness :
  let captured := mkTracker [3; 80; 0] [] None low in
  map LocationData.speed
    (snd (sessionFixes Host.smallAngle captured captured fourDrivingFixes))
  = map (fun f => snd (smoothSpeed (speedHistory captured)
                         (calculatedSpeed Host.smallAngle
                            (lastPosition captured) (fixCoords f)
                            (fixNow f))))
        fourDrivingFixes
  /\ map LocationData.speed
       (snd (sessionFixes Host.smallAngle captured captured fourDrivingFixes))
     = [25; 25; 25; 25].
Proof.
  cbv zeta. split.
  - exact (proj1 (session_smoothing_has_no_memory Host.smallAngle
                    (mkTracker [3; 80; 0] [] None low)
                    (mkTracker [3; 80; 0] [] None low) fourDrivingFixes)).
  - vm_compute. reflexivity.
Defined.


Lemma accuracy_tiers_monotone_witness :
  (tierRank (initialAccuracy 4%Q) <= tierRank (accuracyLevel 4%Q))%nat
  /\ (tierRank (accuracyLevel 4%Q) <= tierRank (accuracyLevel 12%Q))%nat.
Proof.
  assert (H : 4 <= 12) by discriminate.
  pose proof (accuracy_tiers_monotone 4 12 H) as (Hsteady & _ & Hfirst).
  exact (conj Hfirst Hsteady).
Defined.

Lemma getBatteryLevel_range_witness :
  exists b,
    getBatteryLevel (batteryRejects "unsupported") 9 30 (7 # 10) = Ok b
    /\ 0 <= b /\ b <= 100 /\ 50 <= b /\ b <= 89.
Proof.
  assert (H0 : 0 <= 7 # 10) by discriminate.
  assert (H1 : 7 # 10 < 1) by reflexivity.
  exact (getBatteryLevel_range (batteryRejects "unsupported") 9 30 (7 # 10)
           H0 H1 I).
Defined.

Lemma first_sample_after_restart_witness :
  speedHistory
    (fst (onPosition Host.smallAngle
            (tracker
               (fst (toggleLocationSharing (geoPosition 4)
                       (fst (toggleLocationSharing geoUnsupported sharing)))))
            driving 1700000004000 80 1700000004000 1700000004000))
  = [calculatedSpeed Host.smallAngle (lastPosition (tracker sharing)) driving
       1700000004000].
Proof.
  pose proof (first_sample_after_restart Host.smallAngle sharing geoUnsupported
                4 driving 1700000004000 80 1700000004000 1700000004000
                eq_refl) as H.
  cbv zeta in H. destruct H as (_ & _ & _ & _ & Hh & _).
  exact Hh.
Defined.

Lemma updateLocation_guards_witness :
  updateLocation Host.utcMonth locationsRejected storeAccepts fortySecondsOn
    fortySecondsOn fortySecondsOn fortySecondsOn (signedIn veteran) sharing
    cruising
  = Ok (console_error (signedIn veteran)
          ("Error updating location: " ++ "offline")%string,
        sharing).
Proof.
  exact (proj2 (proj2 (updateLocation_guards Host.utcMonth locationsRejected
                         storeAccepts fortySecondsOn fortySecondsOn
                         fortySecondsOn fortySecondsOn (signedIn veteran)
                         sharing cruising))
           ada "offline"%string eq_refl eq_refl eq_refl).
Defined.

Lemma rewards_rate_limited_witness :
  exists p last,
    userProfile (signedIn veteran) = Some p
    /\ lastSpeedUpdate sharing = Some last
    /\ (30000 <= getTime fortySecondsOn - getTime last)%Z.
Proof.
  pose (auth' :=
          setUserProfile (signedIn veteran)
            (updatedProfile Host.utcMonth fortySecondsOn veteran
               (mkSpeedData (LocationData.speed cruising)
                  (inject_Z (getTime fortySecondsOn - getTime signup)
                   / (1000 * 60))))).
  pose (ls' := setCurrentLocation (setLastSpeedUpdate sharing fortySecondsOn)
                 cruising).
  assert (Hrun : updateLocation Host.utcMonth locationsAccepted storeAccepts
                   fortySecondsOn fortySecondsOn fortySecondsOn fortySecondsOn
                   (signedIn veteran) sharing cruising = Ok (auth', ls'))
    by reflexivity.
  assert (Hchanged : userProfile auth' <> userProfile (signedIn veteran)).
  { intro H. apply (f_equal (option_map totalDrivingTime)) in H.
    vm_compute in H. discriminate H. }
  destruct (rewards_rate_limited Host.utcMonth locationsAccepted storeAccepts
              fortySecondsOn fortySecondsOn fortySecondsOn fortySecondsOn
              (signedIn veteran) auth' sharing ls' cruising Hrun Hchanged)
    as (p & last & Hp & Hl & _ & _ & Hgap & _).
  exists p, last. exact (conj Hp (conj Hl Hgap)).
Defined.

Lemma short_gaps_accumulate_witness :
  exists auth2 ls2 p2,
    (await r <- updateLocation Host.utcMonth locationsAccepted storeAccepts
                  tenSecondsOn tenSecondsOn tenSecondsOn tenSecondsOn
                  (signedIn veteran) sharing cruising ;;
     updateLocation Host.utcMonth locationsAccepted storeAccepts
       fortySecondsOn fortySecondsOn fortySecondsOn fortySecondsOn
       (fst r) (snd r) cruising)
    = Ok (auth2, ls2)
    /\ userProfile auth2 = Some p2
    /\ totalDrivingTime p2
       = totalDrivingTime veteran
         + inject_Z (getTime fortySecondsOn - getTime signup) / (1000 * 60)
    /\ lastSpeedUpdate ls2 = Some fortySecondsOn.
Proof.
  assert (Hs : 0 <= LocationData.speed cruising) by discriminate.
  assert (H1 : (getTime tenSecondsOn - getTime signup < 30000)%Z)
    by reflexivity.
  assert (H2 : (30000 <= getTime fortySecondsOn - getTime signup)%Z)
    by discriminate.
  exact (short_gaps_accumulate Host.utcMonth locationsAccepted storeAccepts
           tenSecondsOn tenSecondsOn tenSecondsOn tenSecondsOn
           fortySecondsOn fortySecondsOn fortySecondsOn fortySecondsOn
           (signedIn veteran) sharing cruising cruising ada veteran signup
           eq_refl eq_refl eq_refl eq_refl
           (fun _ _ => eq_refl) (fun _ _ => eq_refl) Hs H1 H2).
Defined.

Lemma failed_reward_write_still_marks_witness :
  exists auth' ls',
    updateLocation Host.utcMonth locationsAccepted storeRejects
      fortySecondsOn fortySecondsOn fortySecondsOn fortySecondsOn
      (signedIn veteran) sharing cruising = Ok (auth', ls')
    /\ userProfile auth' = Some veteran
    /\ lastSpeedUpdate ls' = Some fortySecondsOn
    /\ currentLocation ls' = Some cruising.
Proof.
  assert (Hs : 0 <= LocationData.speed cruising) by discriminate.
  assert (H2 : (30000 <= getTime fortySecondsOn - getTime signup)%Z)
    by discriminate.
  exact (failed_reward_write_still_marks Host.utcMonth locationsAccepted
           storeRejects fortySecondsOn fortySecondsOn fortySecondsOn
           fortySecondsOn (signedIn veteran) sharing cruising ada veteran
           signup "unavailable"%string eq_refl eq_refl eq_refl eq_refl
           (fun _ _ => eq_refl) (fun _ _ => eq_refl) Hs H2).
Defined.

(** Ten hours with sharing switched off, then one sample at 30 mph. *)
Lemma pause_counted_as_driving_witness :
  totalDrivingTime
    (updatedProfile Host.utcMonth tenHoursOn veteran
       (mkSpeedData (LocationData.speed cruising)
          (inject_Z (getTime tenHoursOn - getTime signup) / (1000 * 60))))
  = totalDrivingTime veteran
    + inject_Z (getTime tenHoursOn - getTime signup) / (1000 * 60).
Proof.
  assert (Hs : 0 <= LocationData.speed cruising) by discriminate.
  assert (H2 : (30000 <= getTime tenHoursOn - getTime signup)%Z)
    by discriminate.
  pose proof (pause_counted_as_driving Host.utcMonth locationsAccepted
                storeAccepts tenHoursOn tenHoursOn tenHoursOn tenHoursOn
                (signedIn veteran) sharing cruising ada veteran signup
                geoUnsupported 4 eq_refl eq_refl eq_refl eq_refl
                (fun _ _ => eq_refl) (fun _ _ => eq_refl) Hs H2) as H.
  cbv zeta in H. destruct H as (auth' & ls' & _ & _ & Htime).
  exact Htime.
Defined.

Lemma lastSeenText_buckets_witness :
  exists n, (1 <= n <= 59)%Z
            /\ lastSeenText 125000 = (showZ n ++ " min ago")%string.
Proof.
  assert (H : (60000 <= 125000 < 3600000)%Z) by (split; [discriminate | reflexivity]).
  exact (proj1 (proj2 (lastSeenText_buckets 125000)) H).
Defined.

Lemma member_zero_reads_as_default_witness :
  CircleMember.safetyScore
    (circleMember "u2" unscored (Some exhausted) sameMonth 1700000030000
       1700000030000) = 100
  /\ LocationData.battery
       (CircleMember.location
          (circleMember "u2" unscored (Some exhausted) sameMonth 1700000030000
             1700000030000)) = 85.
Proof.
  pose proof (member_zero_reads_as_default "u2" unscored (Some exhausted)
                sameMonth 1700000030000 1700000030000) as H.
  cbv zeta in H. destruct H as (_ & _ & _ & Hscore & Hbattery).
  exact (conj (Hscore eq_refl) (Hbattery exhausted eq_refl eq_refl)).
Defined.

Lemma peers_see_driving_above_three_witness :
  LocationData.isDriving
    (snd (onPosition Host.smallAngle idle strolling 1700000000000 80
            1700000000000 1700000000000)) = true
  /\ LocationData.isDriving
       (fst (memberLocation
               (Some (storedSample
                        (snd (onPosition Host.smallAngle idle strolling
                                1700000000000 80 1700000000000 1700000000000))
                        signup))
               sameMonth 1700000030000)) = false.
Proof.
  pose proof (peers_see_driving_above_three Host.smallAngle idle strolling
                1700000000000 80 1700000000000 1700000000000 signup sameMonth
                1700000030000) as H.
  cbv zeta in H. destruct H as (_ & _ & _ & Hthree).
  apply Hthree. reflexivity.
Defined.

Lemma member_without_timestamp_is_online_witness :
  CircleMember.isOnline
    (circleMember "u2" unscored None sameMonth 1700000030000 1700000030050)
  = true
  /\ CircleMember.lastSeen
       (circleMember "u2" unscored None sameMonth 1700000030000 1700000030050)
     = "Never"%string.
Proof.
  assert (Hclock : (getTime sameMonth <= 1700000030050
                    < getTime sameMonth + 300000)%Z)
    by (split; [discriminate | reflexivity]).
  pose proof (member_without_timestamp_is_online "u2" unscored None sameMonth
                1700000030000 1700000030050 I Hclock) as H.
  cbv zeta in H. destruct H as (Hon & Hnever).
  exact (conj Hon (Hnever eq_refl)).
Defined.

Lemma online_member_seen_recently_witness :
  CircleMember.lastSeen
    (circleMember "u2" unscored (Some exhausted) sameMonth 1700000130000
       1700000130000) = "now"%string
  \/ exists n, (1 <= n <= 4)%Z
               /\ CircleMember.lastSeen
                    (circleMember "u2" unscored (Some exhausted) sameMonth
                       1700000130000 1700000130000)
                  = (showZ n ++ " min ago")%string.
Proof.
  assert (Hclock : (1700000130000 <= 1700000130000)%Z) by discriminate.
  exact (online_member_seen_recently "u2" unscored exhausted signup sameMonth
           1700000130000 1700000130000 eq_refl Hclock eq_refl).
Defined.

Lemma joinCircle_success_witness :
  exists user profile members,
    currentUser (signedIn newcomer) = Some user
    /\ userProfile (signedIn newcomer) = Some profile
    /\ findCircle openStore "XYZ789" = Ok (Some members)
    /\ userProfile (outAuth (joinCircle openStore (signedIn newcomer) None
                               "XYZ789"))
       = Some (withJoinedCircles profile
                 (joinedCircles profile ++ ["XYZ789"%string])).
Proof.
  destruct (joinCircle_success openStore (signedIn newcomer) None "XYZ789"
              eq_refl)
    as (user & profile & members & Hu & Hp & Hf & _ & _ & Hnew & _).
  exists user, profile, members. exact (conj Hu (conj Hp (conj Hf Hnew))).
Defined.


Lemma joinCircle_half_done_witness :
  outResult (joinCircle profileLocked (signedIn newcomer) None "XYZ789")
  = Throw "permission-denied"
  /\ outWrites (joinCircle profileLocked (signedIn newcomer) None "XYZ789")
     = [SetCircleMembers "XYZ789" ["u9"; "u1"]%string].
Proof.
  assert (Hlen : (length (joinedCircles newcomer) <= 1)%nat) by (simpl; lia).
  assert (Hnot : ~ In "XYZ789"%string (joinedCircles newcomer)).
  { simpl. intros [H | []]. discriminate H. }
  pose proof (joinCircle_half_done profileLocked grownStore (signedIn newcomer)
                None "XYZ789" ada newcomer ["u9"%string] "permission-denied"
                eq_refl eq_refl Hlen Hnot eq_refl eq_refl eq_refl eq_refl
                (fun _ => eq_refl)) as H.
  cbv zeta in H. destruct H as (Hres & _ & Hwrites & _).
  exact (conj Hres Hwrites).
Defined.

Lemma join_then_leave_restores_witness :
  userProfile
    (outAuth
       (leaveCircle grownStore
          (outAuth (joinCircle openStore (signedIn newcomer) None "XYZ789"))
          (outError (joinCircle openStore (signedIn newcomer) None "XYZ789"))
          (Some "ABC123"%string) "XYZ789"))
  = userProfile (signedIn newcomer).
Proof.
  assert (Hown : Some "ABC123"%string <> Some "XYZ789"%string)
    by discriminate.
  exact (proj1 (proj2 (join_then_leave_restores openStore grownStore
                         (signedIn newcomer) None (Some "ABC123"%string)
                         "XYZ789" (Some ["u9"; "u1"]%string) Hown eq_refl
                         (fun _ => eq_refl) eq_refl))).
Defined.

Lemma leaveCircle_keeps_other_circles_witness :
  exists p',
    userProfile
      (outAuth (leaveCircle openStore (signedIn veteran) None
                  (Some "ABC123"%string) "ABC123"))
    = Some p'
    /\ (In "ABC123"%string (joinedCircles veteran) ->
        In "ABC123"%string (joinedCircles p')).
Proof.
  destruct (leaveCircle_keeps_other_circles openStore (signedIn veteran) None
              (Some "ABC123"%string) "ABC123" veteran eq_refl)
    as (p' & Hp & _ & Hown).
  exists p'. exact (conj Hp (Hown _ eq_refl)).
Defined.
